(** * sentry.auth.helper: the SSO pipeline helper

    A shallow embedding of [src/sentry/auth/helper.py] (class [AuthHelper])
    and the properties of its session-scoped pipeline state machine.

    Python values are modelled by a small value type, dictionaries by
    [gmap string _], exceptions by an explicit result type, and the
    request (session, database, flash messages) by a record threaded
    through a state-and-exception monad. *)

From Stdlib Require Import ZArith List String Ascii Bool Lia.
From stdpp Require Import base option gmap strings list fin_maps.

Local Open Scope Z_scope.

(* ===================================================================== *)
(** * hashlib.md5

    [md5(s).hexdigest()] of the standard library, written out after
    RFC 1321.  A Python 2 [str] is a byte string, which is what Rocq's
    [string] is. *)
(* ===================================================================== *)

Module MD5.

Definition mask32 : Z := 0xffffffff.

Definition add32 (a b : Z) : Z := Z.land (a + b) mask32.

Definition not32 (a : Z) : Z := Z.lxor a mask32.

Definition rotl32 (x c : Z) : Z :=
  Z.lor (Z.land (Z.shiftl x c) mask32) (Z.shiftr x (32 - c)).

(** Per-round shift amounts. *)
Definition shifts : list Z :=
  [ 7; 12; 17; 22; 7; 12; 17; 22; 7; 12; 17; 22; 7; 12; 17; 22;
    5;  9; 14; 20; 5;  9; 14; 20; 5;  9; 14; 20; 5;  9; 14; 20;
    4; 11; 16; 23; 4; 11; 16; 23; 4; 11; 16; 23; 4; 11; 16; 23;
    6; 10; 15; 21; 6; 10; 15; 21; 6; 10; 15; 21; 6; 10; 15; 21 ].

(** [K[i] = floor(2^32 * abs(sin(i + 1)))]. *)
Definition sines : list Z :=
  [ 0xd76aa478; 0xe8c7b756; 0x242070db; 0xc1bdceee;
    0xf57c0faf; 0x4787c62a; 0xa8304613; 0xfd469501;
    0x698098d8; 0x8b44f7af; 0xffff5bb1; 0x895cd7be;
    0x6b901122; 0xfd987193; 0xa679438e; 0x49b40821;
    0xf61e2562; 0xc040b340; 0x265e5a51; 0xe9b6c7aa;
    0xd62f105d; 0x02441453; 0xd8a1e681; 0xe7d3fbc8;
    0x21e1cde6; 0xc33707d6; 0xf4d50d87; 0x455a14ed;
    0xa9e3e905; 0xfcefa3f8; 0x676f02d9; 0x8d2a4c8a;
    0xfffa3942; 0x8771f681; 0x6d9d6122; 0xfde5380c;
    0xa4beea44; 0x4bdecfa9; 0xf6bb4b60; 0xbebfbc70;
    0x289b7ec6; 0xeaa127fa; 0xd4ef3085; 0x04881d05;
    0xd9d4d039; 0xe6db99e5; 0x1fa27cf8; 0xc4ac5665;
    0xf4292244; 0x432aff97; 0xab9423a7; 0xfc93a039;
    0x655b59c3; 0x8f0ccc92; 0xffeff47d; 0x85845dd1;
    0x6fa87e4f; 0xfe2ce6e0; 0xa3014314; 0x4e0811a1;
    0xf7537e82; 0xbd3af235; 0x2ad7d2bb; 0xeb86d391 ].

(** The chaining value [(A, B, C, D)]. *)
Record state := State { sA : Z; sB : Z; sC : Z; sD : Z }.

Definition init : state :=
  State 0x67452301 0xefcdab89 0x98badcfe 0x10325476.

Definition bytes_of_string (s : string) : list Z :=
  map (fun c => Z.of_N (N_of_ascii c)) (list_ascii_of_string s).

(** Little-endian encoding of [x] on [n] bytes. *)
Fixpoint le_bytes (n : nat) (x : Z) : list Z :=
  match n with
  | O => []
  | S n' => Z.land x 0xff :: le_bytes n' (Z.shiftr x 8)
  end.

Fixpoint le_word (bs : list Z) : Z :=
  match bs with
  | [] => 0
  | b :: bs' => Z.lor b (Z.shiftl (le_word bs') 8)
  end.

(** Sixteen little-endian 32-bit words of a 64-byte block. *)
Fixpoint words (n : nat) (bs : list Z) : list Z :=
  match n with
  | O => []
  | S n' => le_word (firstn 4 bs) :: words n' (skipn 4 bs)
  end.

(** Message, then 0x80, then zeros up to 56 mod 64, then the bit length
    on 64 bits. *)
Definition pad (msg : list Z) : list Z :=
  let len := Z.of_nat (length msg) in
  let zeros := Z.to_nat ((55 - len) mod 64) in
  msg ++ 0x80 :: repeat 0 zeros ++ le_bytes 8 (Z.land (8 * len) 0xffffffffffffffff).

Definition round (M : list Z) (st : state) (i : nat) : state :=
  let '(State a b c d) := st in
  let iz := Z.of_nat i in
  let '(f, g) :=
    if iz <? 16 then (Z.lor (Z.land b c) (Z.land (not32 b) d), iz)
    else if iz <? 32 then (Z.lor (Z.land d b) (Z.land (not32 d) c), (5 * iz + 1) mod 16)
    else if iz <? 48 then (Z.lxor (Z.lxor b c) d, (3 * iz + 5) mod 16)
    else (Z.lxor c (Z.lor b (not32 d)), (7 * iz) mod 16) in
  let f' := add32 (add32 (add32 f a) (nth i sines 0)) (nth (Z.to_nat g) M 0) in
  State d (add32 b (rotl32 f' (nth i shifts 0))) b c.

Definition block (st : state) (bs : list Z) : state :=
  let M := words 16 bs in
  let st' := fold_left (round M) (seq 0 64) st in
  State (add32 (sA st) (sA st')) (add32 (sB st) (sB st'))
        (add32 (sC st) (sC st')) (add32 (sD st) (sD st')).

Fixpoint blocks (n : nat) (st : state) (bs : list Z) : state :=
  match n with
  | O => st
  | S n' => blocks n' (block st (firstn 64 bs)) (skipn 64 bs)
  end.

(** The 16 bytes of the digest. *)
Definition digest (s : string) : list Z :=
  let bs := pad (bytes_of_string s) in
  let st := blocks (Nat.div (length bs) 64) init bs in
  le_bytes 4 (sA st) ++ le_bytes 4 (sB st) ++ le_bytes 4 (sC st) ++ le_bytes 4 (sD st).

Definition hex_digit (n : Z) : ascii :=
  nth (Z.to_nat n) (list_ascii_of_string "0123456789abcdef") "0"%char.

Definition hex_byte (b : Z) : list ascii :=
  [hex_digit (Z.shiftr b 4); hex_digit (Z.land b 0xf)].

Definition hexdigest (s : string) : string :=
  string_of_list_ascii (flat_map hex_byte (digest s)).

End MD5.


(* ===================================================================== *)
(** * Python values, exceptions, the request *)
(* ===================================================================== *)

(** Values kept in the session and in provider-supplied dictionaries.
    A dictionary holds scalars: the [state] accumulated by the views, the
    [data] of an identity and a provider [config] are flat. *)
Inductive scalar :=
  | SNone
  | SInt (z : Z)
  | SStr (s : string).

Inductive pyval :=
  | VNone
  | VInt (z : Z)
  | VStr (s : string)
  | VDict (d : gmap string scalar).

#[global] Instance scalar_eq_dec : EqDecision scalar.
Proof. solve_decision. Defined.

#[global] Instance pyval_eq_dec : EqDecision pyval.
Proof. solve_decision. Defined.

(** [bool(v)]. *)
Definition truthy (v : pyval) : bool :=
  match v with
  | VNone => false
  | VInt z => negb (z =? 0)
  | VStr s => negb (String.eqb s "")
  | VDict d => negb (bool_decide (d = ∅))
  end.

(** [a == b]. *)
Definition py_eq (a b : pyval) : bool := bool_decide (a = b).

(** [d.get(k)] and [d.get(k, dflt)]. *)
Definition dict_get (d : gmap string pyval) (k : string) : pyval :=
  default VNone (d !! k).

Definition dict_get_or (d : gmap string pyval) (k : string) (dflt : pyval) : pyval :=
  default dflt (d !! k).

Inductive exn :=
  | KeyError (k : string)
  | IndexError
  | TypeError
  | ValueError
  | AttributeError (attr : string)
  | UnboundLocalError (var : string)
  | AssertionError
  | NotImplementedError
  | DoesNotExist (model : string)
  | MultipleObjectsReturned (model : string)
  | ProviderNotRegistered
  | DatabaseError
  | ViewError (msg : string).

Inductive result (A : Type) :=
  | Ok (a : A)
  | Raise (e : exn).

Arguments Ok {A} a.
Arguments Raise {A} e.

(** ** Rows of [sentry.models]

    The model classes are imported by the helper and defined elsewhere;
    the records below carry the columns the helper reads and writes. *)

(** Modelled from the spec: the organization a flow is scoped to, with
    the identifier and the slug the helper uses. *)
Record Organization := {
  org_id : Z;
  org_slug : string;
}.

(** Modelled from the spec: a provider-configuration record scoped to an
    organization, with the provider key, the configuration built from the
    state, and the configured default role. *)
Record AuthProvider := {
  ap_id : Z;
  ap_organization : Z;
  ap_provider : string;
  ap_config : pyval;
  ap_default_role : Z;
}.

(** Modelled from the spec: a user record, flagged as externally managed
    when the login resolver creates it.  [user_last_login] is the column
    of [AbstractBaseUser] that [django.contrib.auth] keeps. *)
Record User := {
  user_id : Z;
  user_email : pyval;
  user_first_name : pyval;
  user_is_managed : bool;
  user_last_login : Z;
}.

(** Modelled from the spec: an identity record linking a user, a
    provider and an external subject id, with the provider-supplied
    data. *)
Record AuthIdentity := {
  ai_id : Z;
  ai_auth_provider : Z;
  ai_user : Z;
  ai_ident : pyval;
  ai_data : pyval;
}.

(** Modelled from the spec: an organization-membership record (global
    access, role). *)
Record OrganizationMember := {
  om_id : Z;
  om_has_global_access : bool;
  om_organization : Z;
  om_type : Z;
  om_user : Z;
}.

(** Modelled from the spec: the two audit events the resolvers log. *)
Inductive AuditLogEntryEvent := MEMBER_ADD | SSO_ENABLE.

(** Modelled from the spec: what [get_audit_log_data()] of a member or of
    a provider returns, the audit snapshot of the row it is called on. *)
Inductive AuditData :=
  | MemberAudit (om : OrganizationMember)
  | ProviderAudit (ap : AuthProvider).

(** Modelled from the spec: an audit-log entry capturing actor, IP,
    target and the audit snapshot. *)
Record AuditLogEntry := {
  ale_organization : Z;
  ale_actor : Z;
  ale_ip_address : string;
  ale_target_object : Z;
  ale_target_user : option Z;
  ale_event : AuditLogEntryEvent;
  ale_data : AuditData;
}.

Record DB := {
  organizations : list Organization;
  auth_providers : list AuthProvider;
  users : list User;
  auth_identities : list AuthIdentity;
  members : list OrganizationMember;
  audit_log : list AuditLogEntry;
}.

(** ** The request

    [session_auth] is [request.session['auth']] ([None] when the key is
    absent) and [session_user] the entry that [django.contrib.auth.login]
    keeps in the same session ([None] when nobody is logged in).
    [modified] is [request.session.modified], the flag of Django's session
    that decides whether the session is saved; the session sets it when an
    entry is assigned or deleted through the session object itself.
    [is_modified] is the attribute [request.session.is_modified] that the
    helper assigns: it is another attribute, and Django's session does not
    read it.  [flash] holds the messages queued with
    [django.contrib.messages], [now] is the reading of [timezone.now()].
    [db_faults] is the number of writes the storage still accepts before
    it fails ([None]: it never fails). *)
Record World := {
  session_auth : option (gmap string pyval);
  modified : bool;
  is_modified : bool;
  session_user : option Z;
  request_user : Z;
  remote_addr : option string;
  flash : list string;
  now : Z;
  db : DB;
  db_faults : option nat;
}.

Definition set_session_auth (a : option (gmap string pyval)) (w : World) : World :=
  {| session_auth := a; modified := modified w;
     is_modified := is_modified w; session_user := session_user w;
     request_user := request_user w; remote_addr := remote_addr w;
     flash := flash w; now := now w; db := db w;
     db_faults := db_faults w |}.

Definition set_modified (b : bool) (w : World) : World :=
  {| session_auth := session_auth w; modified := b;
     is_modified := is_modified w; session_user := session_user w;
     request_user := request_user w; remote_addr := remote_addr w;
     flash := flash w; now := now w; db := db w;
     db_faults := db_faults w |}.

Definition set_is_modified (b : bool) (w : World) : World :=
  {| session_auth := session_auth w; modified := modified w;
     is_modified := b; session_user := session_user w;
     request_user := request_user w; remote_addr := remote_addr w;
     flash := flash w; now := now w; db := db w;
     db_faults := db_faults w |}.

Definition set_session_user (u : option Z) (w : World) : World :=
  {| session_auth := session_auth w; modified := modified w;
     is_modified := is_modified w; session_user := u;
     request_user := request_user w; remote_addr := remote_addr w;
     flash := flash w; now := now w; db := db w;
     db_faults := db_faults w |}.

Definition set_request_user (u : Z) (w : World) : World :=
  {| session_auth := session_auth w; modified := modified w;
     is_modified := is_modified w; session_user := session_user w;
     request_user := u; remote_addr := remote_addr w; flash := flash w;
     now := now w; db := db w; db_faults := db_faults w |}.

Definition set_flash (f : list string) (w : World) : World :=
  {| session_auth := session_auth w; modified := modified w;
     is_modified := is_modified w; session_user := session_user w;
     request_user := request_user w; remote_addr := remote_addr w;
     flash := f; now := now w; db := db w; db_faults := db_faults w |}.

Definition set_db (d : DB) (w : World) : World :=
  {| session_auth := session_auth w; modified := modified w;
     is_modified := is_modified w; session_user := session_user w;
     request_user := request_user w; remote_addr := remote_addr w;
     flash := flash w; now := now w; db := d;
     db_faults := db_faults w |}.

Definition set_db_faults (n : option nat) (w : World) : World :=
  {| session_auth := session_auth w; modified := modified w;
     is_modified := is_modified w; session_user := session_user w;
     request_user := request_user w; remote_addr := remote_addr w;
     flash := flash w; now := now w; db := db w; db_faults := n |}.

(** ** Responses *)

(** Modelled from the spec: the redirect targets.  [reverse(name,
    args=[...])] and the post-login destination of
    [get_login_redirect(request)] are kept symbolic: URL routing is not
    part of the helper. *)
Inductive Url :=
  | Reverse (name : string) (args : list string)
  | LoginRedirect.

Inductive Response :=
  | HttpResponseRedirect (u : Url)
  | HttpResponse (body : string).

(* ===================================================================== *)
(** * The state-and-exception monad *)
(* ===================================================================== *)

Definition M (A : Type) : Type := World -> result A * World.

Definition ret {A} (a : A) : M A := fun w => (Ok a, w).

Definition raise {A} (e : exn) : M A := fun w => (Raise e, w).

Definition bind {A B} (m : M A) (k : A -> M B) : M B :=
  fun w =>
    match m w with
    | (Ok a, w') => k a w'
    | (Raise e, w') => (Raise e, w')
    end.

Declare Scope py_scope.
Delimit Scope py_scope with py.
Notation "x <~ m ;; k" := (bind m (fun x => k))
  (at level 100, m at next level, right associativity) : py_scope.
Notation "m ;;; k" := (bind m (fun _ => k))
  (at level 100, right associativity) : py_scope.
Local Open Scope py_scope.

Definition get_world : M World := fun w => (Ok w, w).

Definition modify (f : World -> World) : M unit := fun w => (Ok tt, f w).

(** Lift a pure fallible computation. *)
Definition lift {A} (r : result A) : M A := fun w => (r, w).

(** [d[k]]. *)
Definition getitem (d : gmap string pyval) (k : string) : M pyval :=
  match d !! k with
  | Some v => ret v
  | None => raise (KeyError k)
  end.

(** [@transaction.atomic]: when the body raises, the database is put back
    to what it was on entry and the exception propagates; everything that
    is not in the database keeps the body's changes. *)
Definition atomic {A} (body : M A) : M A :=
  fun w =>
    match body w with
    | (Ok a, w') => (Ok a, w')
    | (Raise e, w') => (Raise e, set_db (db w) w')
    end.

(** [try: x = body  except E: handler  else: orelse(x)] for the exceptions
    [E] that [catches] selects; any other exception propagates. *)
Definition try_except_else {A B} (body : M A) (catches : exn -> bool)
    (handler : M B) (orelse : A -> M B) : M B :=
  fun w =>
    match body w with
    | (Ok a, w1) => orelse a w1
    | (Raise e, w1) => if catches e then handler w1 else (Raise e, w1)
    end.

(** [except Model.DoesNotExist]. *)
Definition is_DoesNotExist (model : string) (e : exn) : bool :=
  match e with
  | DoesNotExist m => String.eqb m model
  | _ => false
  end.

(* ===================================================================== *)
(** * The model managers *)
(* ===================================================================== *)

Definition next_id {A} (rows : list A) : Z := 1 + Z.of_nat (length rows).

(** One write to the storage: it fails when the storage has no write
    left to accept. *)
Definition db_write (f : DB -> DB) : M unit :=
  fun w =>
    match db_faults w with
    | Some O => (Raise DatabaseError, w)
    | Some (S n) => (Ok tt, set_db (f (db w)) (set_db_faults (Some n) w))
    | None => (Ok tt, set_db (f (db w)) w)
    end.

(** [int(s)] on a string: a decimal numeral with an optional sign, white
    space around it ignored; anything else is a [ValueError]. *)
Definition is_space (c : ascii) : bool :=
  let n := N_of_ascii c in
  ((n =? 32) || ((9 <=? n) && (n <=? 13)))%N.

Fixpoint lstrip (s : string) : string :=
  match s with
  | String c r => if is_space c then lstrip r else s
  | EmptyString => EmptyString
  end.

Definition strip (s : string) : string :=
  String.rev (lstrip (String.rev (lstrip s))).

Fixpoint digits (acc : Z) (s : string) : option Z :=
  match s with
  | EmptyString => Some acc
  | String c r =>
      let n := Z.of_N (N_of_ascii c) in
      if (48 <=? n) && (n <=? 57) then digits (10 * acc + (n - 48)) r
      else None
  end.

Definition py_int (s : string) : option Z :=
  match strip s with
  | EmptyString => None
  | String "-" (String _ _ as t) => Z.opp <$> digits 0 t
  | String "+" (String _ _ as t) => digits 0 t
  | t => digits 0 t
  end.

(** The one row of [rows] with primary key [z]. *)
Definition get_row {A} (model : string) (pk : A -> Z) (rows : list A)
    (z : Z) : result A :=
  match filter (fun r => pk r = z) rows with
  | [r] => Ok r
  | [] => Raise (DoesNotExist model)
  | _ => Raise (MultipleObjectsReturned model)
  end.

(** [Model.objects.get(id=v)]: the one row with this primary key.  The
    integer field prepares the value with [int(v)]: a string that reads
    as an integer finds the row of that integer, any other string is a
    [ValueError], a dictionary a [TypeError].  [None] selects the rows
    whose key is null, and there is none. *)
Definition get_by_id {A} (model : string) (pk : A -> Z) (rows : list A)
    (v : pyval) : result A :=
  match v with
  | VInt z => get_row model pk rows z
  | VStr s =>
      match py_int s with
      | Some z => get_row model pk rows z
      | None => Raise ValueError
      end
  | VNone => Raise (DoesNotExist model)
  | VDict _ => Raise TypeError
  end.

Definition Organization_objects_get (v : pyval) : M Organization :=
  w <~ get_world ;; lift (get_by_id "Organization" org_id (organizations (db w)) v).

Definition AuthProvider_objects_get (v : pyval) : M AuthProvider :=
  w <~ get_world ;; lift (get_by_id "AuthProvider" ap_id (auth_providers (db w)) v).

Definition User_objects_get (z : Z) : M User :=
  w <~ get_world ;; lift (get_by_id "User" user_id (users (db w)) (VInt z)).

(** [AuthIdentity.objects.get(auth_provider=ap, ident=ident)]. *)
Definition AuthIdentity_objects_get (ap : option AuthProvider) (ident : pyval)
    : M AuthIdentity :=
  w <~ get_world ;;
  match ap with
  | None => raise (DoesNotExist "AuthIdentity")
  | Some p =>
      match filter (fun r => ai_auth_provider r = ap_id p ∧ ai_ident r = ident)
                   (auth_identities (db w)) with
      | [r] => ret r
      | [] => raise (DoesNotExist "AuthIdentity")
      | _ => raise (MultipleObjectsReturned "AuthIdentity")
      end
  end.

Definition add_user (u : User) (d : DB) : DB :=
  {| organizations := organizations d; auth_providers := auth_providers d;
     users := users d ++ [u]; auth_identities := auth_identities d;
     members := members d; audit_log := audit_log d |}.

Definition add_auth_identity (i : AuthIdentity) (d : DB) : DB :=
  {| organizations := organizations d; auth_providers := auth_providers d;
     users := users d; auth_identities := auth_identities d ++ [i];
     members := members d; audit_log := audit_log d |}.

Definition set_users (l : list User) (d : DB) : DB :=
  {| organizations := organizations d; auth_providers := auth_providers d;
     users := l; auth_identities := auth_identities d;
     members := members d; audit_log := audit_log d |}.

Definition set_auth_identities (l : list AuthIdentity) (d : DB) : DB :=
  {| organizations := organizations d; auth_providers := auth_providers d;
     users := users d; auth_identities := l;
     members := members d; audit_log := audit_log d |}.

Definition add_member (m : OrganizationMember) (d : DB) : DB :=
  {| organizations := organizations d; auth_providers := auth_providers d;
     users := users d; auth_identities := auth_identities d;
     members := members d ++ [m]; audit_log := audit_log d |}.

Definition add_audit (e : AuditLogEntry) (d : DB) : DB :=
  {| organizations := organizations d; auth_providers := auth_providers d;
     users := users d; auth_identities := auth_identities d;
     members := members d; audit_log := audit_log d ++ [e] |}.

Definition add_auth_provider (p : AuthProvider) (d : DB) : DB :=
  {| organizations := organizations d; auth_providers := auth_providers d ++ [p];
     users := users d; auth_identities := auth_identities d;
     members := members d; audit_log := audit_log d |}.

(** [User.objects.create(email=, first_name=, is_managed=)];
    [last_login] takes the column default, the time of the call. *)
Definition User_objects_create (email first_name : pyval) (is_managed : bool)
    : M User :=
  w <~ get_world ;;
  let u := {| user_id := next_id (users (db w)); user_email := email;
              user_first_name := first_name; user_is_managed := is_managed;
              user_last_login := now w |} in
  db_write (add_user u) ;;; ret u.

(** [AuthIdentity.objects.create(auth_provider=ap, user=user, ident=ident)];
    [data] takes the column default, the empty dictionary.  The provider
    column is not nullable. *)
Definition AuthIdentity_objects_create (ap : option AuthProvider) (user : Z)
    (ident data : pyval) : M AuthIdentity :=
  w <~ get_world ;;
  match ap with
  | None => raise DatabaseError
  | Some p =>
      let i := {| ai_id := next_id (auth_identities (db w));
                  ai_auth_provider := ap_id p; ai_user := user;
                  ai_ident := ident; ai_data := data |} in
      db_write (add_auth_identity i) ;;; ret i
  end.

Definition OrganizationMember_objects_create (has_global_access : bool)
    (organization type user : Z) : M OrganizationMember :=
  w <~ get_world ;;
  let m := {| om_id := next_id (members (db w));
              om_has_global_access := has_global_access;
              om_organization := organization; om_type := type;
              om_user := user |} in
  db_write (add_member m) ;;; ret m.

Definition AuditLogEntry_objects_create (e : AuditLogEntry) : M unit :=
  db_write (add_audit e).

(** Modelled from the spec: the role a new provider configuration gets by
    default.  [sentry.models] fixes the column default and the spec does
    not state it; no property below depends on the value. *)
Definition DEFAULT_ROLE : Z := 50.

Definition AuthProvider_objects_create (organization : Z) (provider : string)
    (config : pyval) : M AuthProvider :=
  w <~ get_world ;;
  let p := {| ap_id := next_id (auth_providers (db w));
              ap_organization := organization; ap_provider := provider;
              ap_config := config; ap_default_role := DEFAULT_ROLE |} in
  db_write (add_auth_provider p) ;;; ret p.

Definition with_data (data : pyval) (i : AuthIdentity) : AuthIdentity :=
  {| ai_id := ai_id i; ai_auth_provider := ai_auth_provider i;
     ai_user := ai_user i; ai_ident := ai_ident i; ai_data := data |}.

(** Modelled from the spec: [auth_identity.update(data=data)] updates the
    identity's data in place.  The row with this primary key is rewritten
    and the instance carries the new value. *)
Definition AuthIdentity_update (i : AuthIdentity) (data : pyval) : M AuthIdentity :=
  db_write (fun d =>
    set_auth_identities
      (map (fun r => if bool_decide (ai_id r = ai_id i) then with_data data r else r)
           (auth_identities d)) d) ;;;
  ret (with_data data i).

(** Modelled from the spec: [AuthIdentity.objects.create_or_update(user=,
    ident=, auth_provider=, defaults={'data': data})] is an upsert keyed by
    user, ident and provider with [data] as the only mutable field.  The
    rows matching the three keys have their [data] rewritten; when there
    is none, a row is created. *)
Definition AuthIdentity_objects_create_or_update (user : Z) (ident : pyval)
    (ap : AuthProvider) (data : pyval) : M unit :=
  w <~ get_world ;;
  let hit r := bool_decide (ai_user r = user ∧ ai_ident r = ident
                            ∧ ai_auth_provider r = ap_id ap) in
  if existsb hit (auth_identities (db w)) then
    db_write (fun d =>
      set_auth_identities
        (map (fun r => if hit r then with_data data r else r) (auth_identities d)) d)
  else
    AuthIdentity_objects_create (Some ap) user ident data ;;; ret tt.

(** [request.session.flush()]: every entry of the session is removed, the
    pipeline record with the rest, and the session is marked modified. *)
Definition session_flush : M unit :=
  modify (fun w =>
    set_modified true (set_session_user None (set_session_auth None w))).

Definition with_last_login (t : Z) (u : User) : User :=
  {| user_id := user_id u; user_email := user_email u;
     user_first_name := user_first_name u;
     user_is_managed := user_is_managed u; user_last_login := t |}.

(** [update_last_login], the receiver that [django.contrib.auth] connects
    to the signal [user_logged_in]: [user.last_login = timezone.now()]
    and [user.save(update_fields=['last_login'])], one write to the row
    of the user. *)
Definition touch_last_login (u : User) (t : Z) (d : DB) : DB :=
  set_users
    (map (fun r => if bool_decide (user_id r = user_id u)
                   then with_last_login t r else r)
         (users d)) d.

Definition update_last_login (u : User) : M unit :=
  w <~ get_world ;;
  db_write (touch_last_login u (now w)).

(** [django.contrib.auth.login(request, user)].  A session that belongs
    to another user is flushed, a session that belongs to nobody keeps
    its entries under a new key; the user is recorded in the session and
    in [request.user], and [user_logged_in] is sent. *)
Definition login (u : User) : M unit :=
  w <~ get_world ;;
  match session_user w with
  | Some pk => if bool_decide (pk = user_id u) then ret tt else session_flush
  | None => modify (set_modified true)
  end ;;;
  modify (set_session_user (Some (user_id u))) ;;;
  modify (set_modified true) ;;;
  modify (set_request_user (user_id u)) ;;;
  update_last_login u.

(** [messages.error(request, text)]. *)
Definition messages_error (text : string) : M unit :=
  modify (fun w => set_flash (flash w ++ [text]) w).

(* ===================================================================== *)
(** * Views and providers *)
(* ===================================================================== *)

(** Modelled from the spec: a step of a pipeline (an [AuthView]), with
    its stable identifier and what [dispatch(request, helper)] does to the
    request. *)
Record AuthView := {
  get_ident : string;
  dispatch : World -> result Response * World;
}.

(** Modelled from the spec: a provider, with its key, its ordered steps
    for either flow, and the identity and configuration it builds from the
    accumulated state. *)
Record Provider := {
  key : string;
  get_auth_pipeline : list AuthView;
  get_setup_pipeline : list AuthView;
  build_identity : pyval -> result (gmap string pyval);
  build_config : pyval -> result pyval;
}.

(* ===================================================================== *)
(** * class AuthHelper *)
(* ===================================================================== *)

Definition FLOW_LOGIN : Z := 1.
Definition FLOW_SETUP_PROVIDER : Z := 2.

Record AuthHelper := {
  auth_provider : option AuthProvider;
  organization : Organization;
  flow : pyval;
  provider : Provider;
  pipeline : list AuthView;
  signature : string;
}.

(** [' '.join(idents)]. *)
Definition join (idents : list string) : string := String.concat " " idents.

(** [md5(' '.join(av.get_ident() for av in pipeline)).hexdigest()]. *)
Definition compute_signature (pipeline : list AuthView) : string :=
  MD5.hexdigest (join (map get_ident pipeline)).

(** [seq[i]] on a list: negative indices count from the end. *)
Definition py_index {A} (l : list A) (v : pyval) : result A :=
  match v with
  | VInt i =>
      let n := Z.of_nat (length l) in
      let j := if i <? 0 then i + n else i in
      if (0 <=? j) && (j <? n) then
        match l !! Z.to_nat j with
        | Some x => Ok x
        | None => Raise IndexError
        end
      else Raise IndexError
  | _ => Raise TypeError
  end.

Section Helper.

(** The provider registry of [sentry.auth.manager]. *)
Variable manager : gmap string Provider.

(** Modelled from the spec: [manager.get(key)] resolves a provider from
    its key, and fails for a key that names none. *)
Definition manager_get (k : pyval) : result Provider :=
  match k with
  | VStr s =>
      match manager !! s with
      | Some p => Ok p
      | None => Raise ProviderNotRegistered
      end
  | _ => Raise ProviderNotRegistered
  end.

(** [AuthHelper.__init__(request, organization, flow, auth_provider,
    provider_key)]. *)
Definition AuthHelper_init (organization : Organization) (flow : pyval)
    (auth_provider : option AuthProvider) (provider_key : pyval)
    : result AuthHelper :=
  if negb (truthy provider_key || bool_decide (is_Some auth_provider)) then
    Raise AssertionError
  else
    let resolved :=
      match auth_provider with
      | Some ap => manager_get (VStr (ap_provider ap))
      | None =>
          if truthy provider_key then manager_get provider_key
          else Raise NotImplementedError
      end in
    match resolved with
    | Raise e => Raise e
    | Ok provider =>
        let chosen :=
          if py_eq flow (VInt FLOW_LOGIN) then Ok (get_auth_pipeline provider)
          else if py_eq flow (VInt FLOW_SETUP_PROVIDER) then
            Ok (get_setup_pipeline provider)
          else Raise NotImplementedError in
        match chosen with
        | Raise e => Raise e
        | Ok pipeline =>
            Ok {| auth_provider := auth_provider;
                  organization := organization;
                  flow := flow;
                  provider := provider;
                  pipeline := pipeline;
                  signature := compute_signature pipeline |}
        end
    end.

(** [AuthHelper.get_for_request(request)].  The local [auth_provider] is
    bound by neither branch when both ['ap'] and ['p'] are falsy. *)
Definition get_for_request : M (option AuthHelper) :=
  w <~ get_world ;;
  let session := default ∅ (session_auth w) in
  let organization_id := dict_get session "org" in
  if negb (truthy organization_id) then
    ret None
  else
    flow <~ getitem session "flow" ;;
    let auth_provider_id := dict_get session "ap" in
    let provider_key := dict_get session "p" in
    auth_provider <~
      (if truthy auth_provider_id then
         ap <~ AuthProvider_objects_get auth_provider_id ;; ret (Some (Some ap))
       else if truthy provider_key then ret (Some None)
       else ret None) ;;
    org_v <~ getitem session "org" ;;
    organization <~ Organization_objects_get org_v ;;
    match auth_provider with
    | None => raise (UnboundLocalError "auth_provider")
    | Some ap =>
        h <~ lift (AuthHelper_init organization flow ap provider_key) ;;
        ret (Some h)
    end.

End Helper.

(** [pipeline_is_valid()]. *)
Definition pipeline_is_valid (self : AuthHelper) : M bool :=
  w <~ get_world ;;
  let session := default ∅ (session_auth w) in
  if bool_decide (session = ∅) then ret false
  else ret (py_eq (dict_get session "sig") (VStr (signature self))).

(** [init_pipeline()]. *)
Definition init_pipeline (self : AuthHelper) : M unit :=
  let session : gmap string pyval :=
    <["ap" := match auth_provider self with
              | Some ap => VInt (ap_id ap)
              | None => VNone
              end]>
    (<["p" := VStr (key (provider self))]>
    (<["org" := VInt (org_id (organization self))]>
    (<["idx" := VInt (-1)]>
    (<["sig" := VStr (signature self)]>
    (<["flow" := flow self]>
    (<["state" := VDict ∅]> ∅)))))) in
  modify (set_session_auth (Some session)) ;;;
  modify (set_modified true) ;;;
  modify (set_is_modified true).

(** [request.session['auth']]. *)
Definition session_getitem_auth : M (gmap string pyval) :=
  w <~ get_world ;;
  match session_auth w with
  | Some s => ret s
  | None => raise (KeyError "auth")
  end.

(** [get_current_view()]. *)
Definition get_current_view (self : AuthHelper) : M AuthView :=
  session <~ session_getitem_auth ;;
  idx <~ getitem session "idx" ;;
  lift (py_index (pipeline self) idx).

(** [v + 1]. *)
Definition py_succ (v : pyval) : result pyval :=
  match v with
  | VInt i => Ok (VInt (i + 1))
  | _ => Raise TypeError
  end.

(** [identity['id']] and the like on the identity dictionary. *)
Definition identity_getitem (identity : gmap string pyval) (k : string) : M pyval :=
  getitem identity k.

(** [request.META['REMOTE_ADDR']]. *)
Definition META_REMOTE_ADDR : M string :=
  w <~ get_world ;;
  match remote_addr w with
  | Some a => ret a
  | None => raise (KeyError "REMOTE_ADDR")
  end.

(** The body of [_finish_login_pipeline(identity)].  [auth_identity] is a
    local of the method: the [try] binds it when the lookup succeeds, the
    [except] branch does not bind it. *)
Definition finish_login_body (self : AuthHelper) (identity : gmap string pyval)
    : M Response :=
  let auth_provider := auth_provider self in
  ident <~ identity_getitem identity "id" ;;
  auth_identity <~
    try_except_else
      (AuthIdentity_objects_get auth_provider ident)
      (is_DoesNotExist "AuthIdentity")
      (email <~ identity_getitem identity "email" ;;
       user <~ User_objects_create email (dict_get identity "name") true ;;
       ident' <~ identity_getitem identity "id" ;;
       AuthIdentity_objects_create auth_provider (user_id user) ident'
         (VDict ∅) ;;;
       role <~ match auth_provider with
               | Some ap => ret (ap_default_role ap)
               | None => raise (AttributeError "default_role")
               end ;;
       om <~ OrganizationMember_objects_create true
               (org_id (organization self)) role (user_id user) ;;
       ip <~ META_REMOTE_ADDR ;;
       AuditLogEntry_objects_create
         {| ale_organization := org_id (organization self);
            ale_actor := user_id user;
            ale_ip_address := ip;
            ale_target_object := om_id om;
            ale_target_user := Some (om_user om);
            ale_event := MEMBER_ADD;
            ale_data := MemberAudit om |} ;;;
       ret None)
      (fun ai =>
         if negb (py_eq (ai_data ai) (dict_get_or identity "data" (VDict ∅)))
         then
           data <~ identity_getitem identity "data" ;;
           ai' <~ AuthIdentity_update ai data ;;
           ret (Some ai')
         else ret (Some ai)) ;;
  match auth_identity with
  | None => raise (UnboundLocalError "auth_identity")
  | Some ai =>
      user <~ User_objects_get (ai_user ai) ;;
      login user ;;;
      ret (HttpResponseRedirect LoginRedirect)
  end.

(** [@transaction.atomic def _finish_login_pipeline(self, identity)]. *)
Definition _finish_login_pipeline (self : AuthHelper)
    (identity : gmap string pyval) : M Response :=
  atomic (finish_login_body self identity).

(** The body of [_finish_setup_pipeline(identity)].  The provider row the
    method stores in [self.auth_provider] is read back only inside the
    method, so it is a local here. *)
Definition finish_setup_body (self : AuthHelper) (identity : gmap string pyval)
    : M Response :=
  session <~ session_getitem_auth ;;
  state <~ getitem session "state" ;;
  config <~ lift (build_config (provider self) state) ;;
  new_provider <~ AuthProvider_objects_create (org_id (organization self))
                    (key (provider self)) config ;;
  w <~ get_world ;;
  ident <~ identity_getitem identity "id" ;;
  AuthIdentity_objects_create_or_update (request_user w) ident new_provider
    (dict_get_or identity "data" (VDict ∅)) ;;;
  ip <~ META_REMOTE_ADDR ;;
  AuditLogEntry_objects_create
    {| ale_organization := org_id (organization self);
       ale_actor := request_user w;
       ale_ip_address := ip;
       ale_target_object := ap_id new_provider;
       ale_target_user := None;
       ale_event := SSO_ENABLE;
       ale_data := ProviderAudit new_provider |} ;;;
  ret (HttpResponseRedirect
         (Reverse "sentry-organization-auth-settings"
                  [org_slug (organization self)])).

(** [@transaction.atomic def _finish_setup_pipeline(self, identity)]. *)
Definition _finish_setup_pipeline (self : AuthHelper)
    (identity : gmap string pyval) : M Response :=
  atomic (finish_setup_body self identity).

(** [del request.session['auth']]: the session marks itself modified
    once the entry is deleted. *)
Definition session_del_auth : M unit :=
  w <~ get_world ;;
  match session_auth w with
  | Some _ => modify (set_session_auth None) ;;; modify (set_modified true)
  | None => raise (KeyError "auth")
  end.

(** [finish_pipeline()].  [response] is bound by the branch taken, and by
    none when the stored flow is neither constant. *)
Definition finish_pipeline (self : AuthHelper) : M Response :=
  session <~ session_getitem_auth ;;
  state <~ getitem session "state" ;;
  identity <~ lift (build_identity (provider self) state) ;;
  stored_flow <~ getitem session "flow" ;;
  response <~
    (if py_eq stored_flow (VInt FLOW_LOGIN) then
       r <~ _finish_login_pipeline self identity ;; ret (Some r)
     else
       stored_flow' <~ getitem session "flow" ;;
       if py_eq stored_flow' (VInt FLOW_SETUP_PROVIDER) then
         r <~ _finish_setup_pipeline self identity ;; ret (Some r)
       else ret None) ;;
  session_del_auth ;;;
  modify (set_is_modified true) ;;;
  match response with
  | Some r => ret r
  | None => raise (UnboundLocalError "response")
  end.

(** [next_step()]. *)
Definition next_step (self : AuthHelper) : M Response :=
  session <~ session_getitem_auth ;;
  old <~ getitem session "idx" ;;
  new <~ lift (py_succ old) ;;
  modify (set_session_auth (Some (<["idx" := new]> session))) ;;;
  modify (set_is_modified true) ;;;
  let idx := new in
  if py_eq idx (VInt (Z.of_nat (length (pipeline self)))) then
    finish_pipeline self
  else
    view <~ lift (py_index (pipeline self) idx) ;;
    dispatch view.

(** [error(message)]. *)
Definition error (self : AuthHelper) (message : string) : M Response :=
  session <~ session_getitem_auth ;;
  stored_flow <~ getitem session "flow" ;;
  let redirect_uri :=
    if py_eq stored_flow (VInt FLOW_LOGIN) then
      Some (Reverse "sentry-auth-organization" [org_slug (organization self)])
    else if py_eq stored_flow (VInt FLOW_SETUP_PROVIDER) then
      Some (Reverse "sentry-organization-auth-settings"
                    [org_slug (organization self)])
    else None in
  messages_error ("Authentication error: " +:+ message) ;;;
  match redirect_uri with
  | Some u => ret (HttpResponseRedirect u)
  | None => raise (UnboundLocalError "redirect_uri")
  end.

(** [bind_state(key, value)]. *)
Definition bind_state (k : string) (value : scalar) : M unit :=
  session <~ session_getitem_auth ;;
  state <~ getitem session "state" ;;
  match state with
  | VDict d =>
      modify (set_session_auth
                (Some (<["state" := VDict (<[k := value]> d)]> session))) ;;;
      modify (set_is_modified true)
  | _ => raise TypeError
  end.

(** [fetch_state(key)]. *)
Definition fetch_state (k : string) : M scalar :=
  session <~ session_getitem_auth ;;
  state <~ getitem session "state" ;;
  match state with
  | VDict d => ret (default SNone (d !! k))
  | _ => raise (AttributeError "get")
  end.

(* ===================================================================== *)
(** * Fixtures: a provider, an organization, a request *)
(* ===================================================================== *)

Module Fixture.

(** A view that renders its own page and leaves the request alone. *)
Definition page (ident : string) : AuthView :=
  {| get_ident := ident;
     dispatch := fun w => (Ok (HttpResponse ident), w) |}.

Definition the_identity : gmap string pyval :=
  <["id" := VStr "u1"]>
  (<["email" := VStr "u1@example.com"]>
  (<["name" := VStr "U One"]>
  (<["data" := VDict (<["team" := SStr "core"]> ∅)]> ∅))).

Definition dummy : Provider :=
  {| key := "dummy";
     get_auth_pipeline := [page "collect"; page "confirm"];
     get_setup_pipeline := [page "configure"];
     build_identity := fun _ => Ok the_identity;
     build_config := fun state => Ok state |}.

Definition manager : gmap string Provider := <["dummy" := dummy]> ∅.

Definition acme : Organization := {| org_id := 1; org_slug := "acme" |}.

Definition acme_sso : AuthProvider :=
  {| ap_id := 1; ap_organization := 1; ap_provider := "dummy";
     ap_config := VDict ∅; ap_default_role := 50 |}.

Definition db0 : DB :=
  {| organizations := [acme]; auth_providers := [acme_sso]; users := [];
     auth_identities := []; members := []; audit_log := [] |}.

(** A request with no pipeline in flight. *)
Definition w0 : World :=
  {| session_auth := None; modified := false; is_modified := false;
     session_user := None; request_user := 7;
     remote_addr := Some "10.0.0.1"; flash := []; now := 1000;
     db := db0; db_faults := None |}.

(** The helper of a login through the configured provider. *)
Definition h_login : AuthHelper :=
  {| auth_provider := Some acme_sso; organization := acme;
     flow := VInt FLOW_LOGIN; provider := dummy;
     pipeline := get_auth_pipeline dummy;
     signature := compute_signature (get_auth_pipeline dummy) |}.

(** The helper of a provider setup by key. *)
Definition h_setup : AuthHelper :=
  {| auth_provider := None; organization := acme;
     flow := VInt FLOW_SETUP_PROVIDER; provider := dummy;
     pipeline := get_setup_pipeline dummy;
     signature := compute_signature (get_setup_pipeline dummy) |}.

(** The request that comes next: the session is loaded as it was saved,
    and nothing has marked it yet. *)
Definition next_request (w : World) : World :=
  set_is_modified false (set_modified false w).

(** The request that follows [init_pipeline()] of the login helper. *)
Definition w_login : World :=
  next_request (snd (init_pipeline h_login w0)).

(** A returning user: the identity is already bound to the provider, with
    data that differ from what the provider sends now. *)
Definition u_one : User :=
  {| user_id := 1; user_email := VStr "u1@example.com";
     user_first_name := VStr "U One"; user_is_managed := true;
     user_last_login := 900 |}.

Definition id_one : AuthIdentity :=
  {| ai_id := 1; ai_auth_provider := 1; ai_user := 1;
     ai_ident := VStr "u1"; ai_data := VDict (<["team" := SStr "ops"]> ∅) |}.

Definition db_known : DB :=
  {| organizations := [acme]; auth_providers := [acme_sso]; users := [u_one];
     auth_identities := [id_one]; members := []; audit_log := [] |}.

Definition w_known : World := set_db db_known w_login.

(** The identity a provider builds when it has no data to pass on. *)
Definition identity_no_data : gmap string pyval :=
  <["id" := VStr "u1"]>
  (<["email" := VStr "u1@example.com"]>
  (<["name" := VStr "U One"]> ∅)).

(** A storage that accepts two writes and fails on the third. *)
Definition w_failing : World := set_db_faults (Some 2%nat) w_login.

(** A record whose stored flow is neither constant. *)
Definition w_odd_flow : World :=
  set_session_auth
    (Some (<["flow" := VInt 5]> (default ∅ (session_auth w_login)))) w_login.

(** The provider before and after a deployment that splits its single
    view ["a b"] into the two views ["a"] and ["b"]. *)
Definition dummy_one_view : Provider :=
  {| key := "dummy";
     get_auth_pipeline := [page "a b"];
     get_setup_pipeline := [page "configure"];
     build_identity := fun _ => Ok the_identity;
     build_config := fun state => Ok state |}.

Definition dummy_two_views : Provider :=
  {| key := "dummy";
     get_auth_pipeline := [page "a"; page "b"];
     get_setup_pipeline := [page "configure"];
     build_identity := fun _ => Ok the_identity;
     build_config := fun state => Ok state |}.

Definition manager_before : gmap string Provider := <["dummy" := dummy_one_view]> ∅.
Definition manager_after : gmap string Provider := <["dummy" := dummy_two_views]> ∅.

Definition h_before : AuthHelper :=
  {| auth_provider := Some acme_sso; organization := acme;
     flow := VInt FLOW_LOGIN; provider := dummy_one_view;
     pipeline := [page "a b"];
     signature := compute_signature [page "a b"] |}.

Definition h_after : AuthHelper :=
  {| auth_provider := Some acme_sso; organization := acme;
     flow := VInt FLOW_LOGIN; provider := dummy_two_views;
     pipeline := [page "a"; page "b"];
     signature := compute_signature [page "a"; page "b"] |}.

(** The request that follows [init_pipeline()] before the deployment. *)
Definition w_before : World :=
  next_request (snd (init_pipeline h_before w0)).

(** The request that follows [init_pipeline()] of the setup helper. *)
Definition w_setup : World :=
  next_request (snd (init_pipeline h_setup w0)).

(** A record that names an organization that is not in the database. *)
Definition w_stale_org : World :=
  set_session_auth
    (Some (<["org" := VInt 7]> (default ∅ (session_auth w_setup)))) w_setup.

(** The same for the record of a login, which names an auth provider
    that is in the database. *)
Definition w_stale_org_login : World :=
  set_session_auth
    (Some (<["org" := VInt 7]> (default ∅ (session_auth w_login)))) w_login.

(** The returning user finishes the login in a session that belongs to
    another user, number 99. *)
Definition w_other_user : World := set_session_user (Some 99) w_known.

(** A record whose index is the step count, as a finish that raised
    leaves it. *)
Definition w_at_end : World :=
  set_session_auth
    (Some (<["idx" := VInt 2]> (default ∅ (session_auth w_login)))) w_login.

(** A record that was stored with its ids as strings. *)
Definition w_string_ids : World :=
  set_session_auth
    (Some (<["org" := VStr "1"]>
          (<["ap" := VStr " 1"]> (default ∅ (session_auth w_login))))) w_login.

(** [bytes.fromhex]. *)
Definition hex_val (c : ascii) : Z :=
  let n := Z.of_N (N_of_ascii c) in
  if (48 <=? n) && (n <=? 57) then n - 48
  else if (97 <=? n) && (n <=? 102) then n - 87
  else 0.

Fixpoint unhex (s : string) : string :=
  match s with
  | String a (String b rest) =>
      String (ascii_of_N (Z.to_N (16 * hex_val a + hex_val b))) (unhex rest)
  | _ => EmptyString
  end.

(** Two 64-byte strings that differ in two bytes and have the same MD5
    digest, [008ee33a9d58b51cfeb425b0959121c9]. *)
Definition collision_a : string :=
  unhex ("4dc968ff0ee35c209572d4777b721587d36fa7b21bdc56b74a3dc0783e7b9518"
     +:+ "afbfa200a8284bf36e8e4b55b35f427593d849676da0d1555d8360fb5f07fea2").

Definition collision_b : string :=
  unhex ("4dc968ff0ee35c209572d4777b721587d36fa7b21bdc56b74a3dc0783e7b9518"
     +:+ "afbfa202a8284bf36e8e4b55b35f427593d849676da0d1d55d8360fb5f07fea2").

(** The setup pipeline on a request that carries no remote address. *)
Definition w_setup_no_addr : World :=
  {| session_auth := session_auth w_setup; modified := false;
     is_modified := false; session_user := None; request_user := 7;
     remote_addr := None; flash := []; now := 1000;
     db := db0; db_faults := None |}.

End Fixture.

(* ===================================================================== *)
(** * Vocabulary of the statements *)
(* ===================================================================== *)

(** The request once the pipeline record is deleted from the session,
    which marks the session modified, and the helper has set its own
    attribute. *)
Definition cleared (w : World) : World :=
  set_is_modified true (set_modified true (set_session_auth None w)).

(** What [finish_pipeline] makes of the outcome of a resolver.  An
    exception propagates from where it was raised.  After a response,
    [del request.session['auth']] runs: when the record is still in the
    session it is cleared and the response returned, and when the
    resolver has left no record the deletion raises [KeyError]. *)
Definition after_resolver (out : result Response * World)
    : result Response * World :=
  match out with
  | (Ok r, w1) =>
      match session_auth w1 with
      | Some _ => (Ok r, cleared w1)
      | None => (Raise (KeyError "auth"), w1)
      end
  | (Raise e, w1) => (Raise e, w1)
  end.

(** The session belongs to a user other than [u]. *)
Definition owned_by_other (u : User) (w : World) : bool :=
  match session_user w with
  | Some pk => negb (bool_decide (pk = user_id u))
  | None => false
  end.

(** The request once [login] has recorded user [u]: without the pipeline
    record when the session belonged to another user. *)
Definition logged_in (u : User) (w : World) : World :=
  set_request_user (user_id u)
    (set_modified true
       (set_session_user (Some (user_id u))
          (if owned_by_other u w then set_session_auth None w else w))).

(** What the login resolver can make of the session: the helper's
    attribute is never touched, and the pipeline record is either as it
    was or gone, which takes a session that belonged to one user and a
    login of another. *)
Definition kept_or_flushed (w w' : World) : Prop :=
  is_modified w' = is_modified w
  ∧ (session_auth w' = session_auth w
     ∨ (session_auth w' = None
        ∧ ∃ pk uid, session_user w = Some pk
                    ∧ session_user w' = Some uid ∧ pk ≠ uid)).

(** The request once [next_step] has stored index [i + 1] in record [s]
    and set the helper's attribute. *)
Definition bumped (s : gmap string pyval) (i : Z) (w : World) : World :=
  set_is_modified true (set_session_auth (Some (<["idx" := VInt (i + 1)]> s)) w).

(** The stored ['idx'], when there is a record that has one. *)
Definition stored_idx (w : World) : option pyval :=
  s ← session_auth w; s !! "idx".

(** An entry of the record is set: present and not [None]. *)
Definition is_set (o : option pyval) : bool :=
  match o with
  | None | Some VNone => false
  | Some _ => true
  end.

(** Exactly one of ['ap'] and ['p'] is set. *)
Definition exactly_one_set (s : gmap string pyval) : bool :=
  xorb (is_set (s !! "ap")) (is_set (s !! "p")).

(** [k] calls of [next_step], whatever each returns. *)
Fixpoint advance (self : AuthHelper) (k : nat) (w : World) : World :=
  match k with
  | O => w
  | S k' => snd (next_step self (advance self k' w))
  end.

(** What a computation that stays away from the session leaves as it is:
    the pipeline record, the logged-in user, and both flags. *)
Definition same_session (w w' : World) : Prop :=
  session_auth w' = session_auth w
  ∧ session_user w' = session_user w
  ∧ modified w' = modified w
  ∧ is_modified w' = is_modified w.

Definition keeps_session {A} (m : M A) : Prop :=
  ∀ w r w', m w = (r, w') → same_session w w'.

(** A view that does not touch the stored index. *)
Definition keeps_idx (v : AuthView) : Prop :=
  ∀ w, stored_idx (snd (dispatch v w)) = stored_idx w.

(** No space in an identifier. *)
Definition space_free (s : string) : Prop :=
  " "%char ∉ list_ascii_of_string s.

(** A computation that leaves the whole request as it is. *)
Definition read_only {A} (m : M A) : Prop :=
  ∀ w, snd (m w) = w.

(** A character of a lowercase hexadecimal numeral. *)
Definition is_hex_char (c : ascii) : Prop :=
  c ∈ list_ascii_of_string "0123456789abcdef".

(* ===================================================================== *)
(** * Properties *)
(* ===================================================================== *)

(** ** hashlib.md5 *)

(** The test suite of RFC 1321, appendix A.5. *)
Example md5_empty : MD5.hexdigest "" = "d41d8cd98f00b204e9800998ecf8427e"%string.
Proof. vm_compute. reflexivity. Qed.

Example md5_a : MD5.hexdigest "a" = "0cc175b9c0f1b6a831c399e269772661"%string.
Proof. vm_compute. reflexivity. Qed.

Example md5_abc : MD5.hexdigest "abc" = "900150983cd24fb0d6963f7d28e17f72"%string.
Proof. vm_compute. reflexivity. Qed.

Example md5_message_digest :
  MD5.hexdigest "message digest" = "f96b697d7cb7938d525a2f31aaf161d0"%string.
Proof. vm_compute. reflexivity. Qed.

Example md5_alphabet :
  MD5.hexdigest "abcdefghijklmnopqrstuvwxyz" = "c3fcd3d76192e4007dfb496cca67e13b"%string.
Proof. vm_compute. reflexivity. Qed.

Example md5_two_blocks :
  MD5.hexdigest
    "12345678901234567890123456789012345678901234567890123456789012345678901234567890"
  = "57edf4a22be3c955ac49da2e2107b67a"%string.
Proof. vm_compute. reflexivity. Qed.

(** ** The session is out of reach of the model managers *)

Lemma same_session_refl w : same_session w w.
Proof. by repeat split. Qed.

Lemma same_session_trans w1 w2 w3 :
  same_session w1 w2 → same_session w2 w3 → same_session w1 w3.
Proof. unfold same_session. intuition congruence. Qed.

Lemma keeps_ret {A} (a : A) : keeps_session (ret a).
Proof. intros w r w' [= <- <-]. apply same_session_refl. Qed.

Lemma keeps_raise {A} (e : exn) : keeps_session (@raise A e).
Proof. intros w r w' [= <- <-]. apply same_session_refl. Qed.

Lemma keeps_lift {A} (x : result A) : keeps_session (lift x).
Proof. intros w r w' [= <- <-]. apply same_session_refl. Qed.

Lemma keeps_get_world : keeps_session get_world.
Proof. intros w r w' [= <- <-]. apply same_session_refl. Qed.

Lemma keeps_bind {A B} (m : M A) (k : A → M B) :
  keeps_session m → (∀ a, keeps_session (k a)) → keeps_session (bind m k).
Proof.
  intros Hm Hk w r w'. unfold bind.
  destruct (m w) as [[a|e] w1] eqn:E; intros H.
  - exact (same_session_trans _ _ _ (Hm _ _ _ E) (Hk a _ _ _ H)).
  - injection H as <- <-. exact (Hm _ _ _ E).
Qed.

Lemma keeps_db_write f : keeps_session (db_write f).
Proof.
  intros w r w'. unfold db_write.
  destruct (db_faults w) as [[|n]|]; intros [= <- <-]; by repeat split.
Qed.

Lemma keeps_atomic {A} (m : M A) : keeps_session m → keeps_session (atomic m).
Proof.
  intros Hm w r w'. unfold atomic.
  destruct (m w) as [[a|e] w1] eqn:E; intros [= <- <-];
    exact (Hm _ _ _ E).
Qed.

Lemma keeps_try_except_else {A B} (body : M A) catches (handler : M B) orelse :
  keeps_session body → keeps_session handler → (∀ a, keeps_session (orelse a)) →
  keeps_session (try_except_else body catches handler orelse).
Proof.
  intros Hb Hh Ho w r w'. unfold try_except_else.
  destruct (body w) as [[a|e] w1] eqn:E; pose proof (Hb _ _ _ E) as H1.
  - intros H. exact (same_session_trans _ _ _ H1 (Ho a _ _ _ H)).
  - destruct (catches e).
    + intros H. exact (same_session_trans _ _ _ H1 (Hh _ _ _ H)).
    + by intros [= <- <-].
Qed.

Lemma keeps_getitem d k : keeps_session (getitem d k).
Proof. unfold getitem. destruct (d !! k); [apply keeps_ret | apply keeps_raise]. Qed.

Lemma keeps_session_getitem_auth : keeps_session session_getitem_auth.
Proof.
  intros w r w'. unfold session_getitem_auth, bind, get_world.
  destruct (session_auth w) eqn:E; intros [= <- <-]; apply same_session_refl.
Qed.

Lemma keeps_META_REMOTE_ADDR : keeps_session META_REMOTE_ADDR.
Proof.
  intros w r w'. unfold META_REMOTE_ADDR, bind, get_world.
  destruct (remote_addr w) eqn:E; intros [= <- <-]; apply same_session_refl.
Qed.

Create HintDb keeps.

#[local] Hint Resolve keeps_ret keeps_raise keeps_lift keeps_get_world
  keeps_db_write keeps_getitem keeps_session_getitem_auth
  keeps_META_REMOTE_ADDR : keeps.

(** Walks through a computation built from [bind], conditionals and
    matches down to the primitives above. *)
Ltac keeps_step :=
  match goal with
  | |- keeps_session (bind _ _) => apply keeps_bind; [| intros ?]
  | |- keeps_session (atomic _) => apply keeps_atomic
  | |- keeps_session (try_except_else _ _ _ _) =>
      apply keeps_try_except_else; [| | intros ?]
  | |- keeps_session (if ?b then _ else _) => destruct b
  | |- keeps_session (match ?x with _ => _ end) => destruct x
  | |- keeps_session _ => solve [auto with keeps]
  end.

Ltac keeps_auto := repeat keeps_step.

Lemma keeps_User_objects_create e n b : keeps_session (User_objects_create e n b).
Proof. unfold User_objects_create. keeps_auto. Qed.

Lemma keeps_User_objects_get z : keeps_session (User_objects_get z).
Proof. unfold User_objects_get. keeps_auto. Qed.

Lemma keeps_AuthIdentity_objects_get ap i :
  keeps_session (AuthIdentity_objects_get ap i).
Proof. unfold AuthIdentity_objects_get. keeps_auto. Qed.

Lemma keeps_AuthIdentity_objects_create ap u i d :
  keeps_session (AuthIdentity_objects_create ap u i d).
Proof. unfold AuthIdentity_objects_create. keeps_auto. Qed.

Lemma keeps_OrganizationMember_objects_create g o t u :
  keeps_session (OrganizationMember_objects_create g o t u).
Proof. unfold OrganizationMember_objects_create. keeps_auto. Qed.

Lemma keeps_AuditLogEntry_objects_create e :
  keeps_session (AuditLogEntry_objects_create e).
Proof. unfold AuditLogEntry_objects_create. keeps_auto. Qed.

Lemma keeps_AuthProvider_objects_create o p c :
  keeps_session (AuthProvider_objects_create o p c).
Proof. unfold AuthProvider_objects_create. keeps_auto. Qed.

Lemma keeps_AuthIdentity_update i d : keeps_session (AuthIdentity_update i d).
Proof. unfold AuthIdentity_update. keeps_auto. Qed.

Lemma keeps_AuthIdentity_objects_create_or_update u i ap d :
  keeps_session (AuthIdentity_objects_create_or_update u i ap d).
Proof.
  unfold AuthIdentity_objects_create_or_update. keeps_auto.
  apply keeps_AuthIdentity_objects_create.
Qed.

#[local] Hint Resolve keeps_User_objects_create keeps_User_objects_get
  keeps_AuthIdentity_objects_get keeps_AuthIdentity_objects_create
  keeps_OrganizationMember_objects_create keeps_AuditLogEntry_objects_create
  keeps_AuthProvider_objects_create keeps_AuthIdentity_update
  keeps_AuthIdentity_objects_create_or_update : keeps.

Lemma keeps_finish_setup_pipeline h identity :
  keeps_session (_finish_setup_pipeline h identity).
Proof.
  unfold _finish_setup_pipeline, finish_setup_body, identity_getitem.
  keeps_auto.
Qed.

(** ** [login] and the session *)

Lemma bind_inv {A B} (m : M A) (k : A → M B) w r w' :
  bind m k w = (r, w') →
  (∃ a w1, m w = (Ok a, w1) ∧ k a w1 = (r, w'))
  ∨ (∃ e, m w = (Raise e, w') ∧ r = Raise e).
Proof.
  unfold bind. destruct (m w) as [[a|e] w1].
  - left. eauto.
  - intros [= <- <-]. right. eauto.
Qed.

Lemma bind_Ok {A B} (m : M A) (k : A → M B) w a w1 :
  m w = (Ok a, w1) → bind m k w = k a w1.
Proof. intros H. unfold bind. by rewrite H. Qed.

Lemma bind_Raise {A B} (m : M A) (k : A → M B) w e w1 :
  m w = (Raise e, w1) → bind m k w = (Raise e, w1).
Proof. intros H. unfold bind. by rewrite H. Qed.

Lemma db_write_accepts f w :
  db_faults w = None → db_write f w = (Ok tt, set_db (f (db w)) w).
Proof. intros H. unfold db_write. by rewrite H. Qed.

Lemma db_write_refuses f w :
  db_faults w = Some 0%nat → db_write f w = (Raise DatabaseError, w).
Proof. intros H. unfold db_write. by rewrite H. Qed.

(** [login] up to its write: the session and [request.user] are settled
    before [user_logged_in] is sent. *)
Lemma login_unfold u w :
  login u w = db_write (touch_last_login u (now w)) (logged_in u w).
Proof.
  unfold login, logged_in, owned_by_other, bind at 1, get_world.
  destruct (session_user w) as [pk |] eqn:Hu.
  - destruct (bool_decide (pk = user_id u)); reflexivity.
  - unfold bind, modify, update_last_login, bind, get_world. cbn.
    unfold set_modified at 2. by rewrite Hu.
Qed.

Lemma login_accepted u w :
  db_faults w = None →
  login u w = (Ok tt, set_db (touch_last_login u (now w) (db w)) (logged_in u w)).
Proof.
  intros H. rewrite login_unfold. rewrite db_write_accepts.
  - unfold logged_in. by destruct (owned_by_other u w).
  - unfold logged_in. by destruct (owned_by_other u w).
Qed.

Lemma login_refused u w :
  db_faults w = Some 0%nat →
  login u w = (Raise DatabaseError, logged_in u w).
Proof.
  intros H. rewrite login_unfold. rewrite db_write_refuses; [reflexivity |].
  unfold logged_in. by destruct (owned_by_other u w).
Qed.

Lemma logged_in_session u w : kept_or_flushed w (logged_in u w).
Proof.
  unfold kept_or_flushed, logged_in, owned_by_other.
  destruct (session_user w) as [pk |] eqn:Hu; [| split; [done | by left]].
  destruct (bool_decide (pk = user_id u)) eqn:Hd; cbn [negb].
  - split; [done | by left].
  - split; [done |]. right. split; [done |].
    exists pk, (user_id u). apply bool_decide_eq_false in Hd. done.
Qed.

Lemma login_session u w r w' : login u w = (r, w') → kept_or_flushed w w'.
Proof.
  rewrite login_unfold. intros H.
  pose proof (keeps_db_write _ _ _ _ H) as (Ha & Hu & _ & Hi).
  destruct (logged_in_session u w) as [Hi' Hcase].
  split; [congruence |].
  destruct Hcase as [Hk | (Hn & pk & uid & H1 & H2 & H3)].
  - left. congruence.
  - right. split; [congruence |]. exists pk, uid. repeat split; congruence.
Qed.

Lemma kept_or_flushed_refl w : kept_or_flushed w w.
Proof. split; [done | by left]. Qed.

Lemma kept_or_flushed_after w1 w2 w3 :
  same_session w1 w2 → kept_or_flushed w2 w3 → kept_or_flushed w1 w3.
Proof.
  intros (Ha & Hu & _ & Hi) [Hi' Hcase]. split; [congruence |].
  destruct Hcase as [Hk | (Hn & pk & uid & H1 & H2 & H3)].
  - left. congruence.
  - right. split; [done |]. exists pk, uid. repeat split; congruence.
Qed.

Lemma kept_or_flushed_set_db d w1 w2 :
  kept_or_flushed w1 w2 → kept_or_flushed w1 (set_db d w2).
Proof. done. Qed.

(** The login resolver up to the read of [auth_identity.user]: the
    identity it goes on with, if the [try] statement bound one. *)
Lemma finish_login_body_inv h identity w r w' :
  finish_login_body h identity w = (r, w') →
  (same_session w w' ∧ ∃ e, r = Raise e)
  ∨ (∃ ai u w1, same_session w w1
                ∧ User_objects_get (ai_user ai) w1 = (Ok u, w1)
                ∧ (login u ;;; ret (HttpResponseRedirect LoginRedirect)) w1
                  = (r, w')).
Proof.
  unfold finish_login_body, identity_getitem. intros H.
  apply bind_inv in H as [(ident & w1 & H1 & H) | (e & H1 & ->)].
  2:{ left. split; [exact (keeps_getitem _ _ _ _ _ H1) | eauto]. }
  pose proof (keeps_getitem _ _ _ _ _ H1) as K1.
  apply bind_inv in H as [(ai & w2 & H2 & H) | (e & H2 & ->)].
  - assert (K2 : same_session w1 w2).
    { revert H2. apply keeps_try_except_else; [auto with keeps | | intros a].
      - keeps_auto.
      - keeps_auto. }
    destruct ai as [ai |].
    2:{ injection H as <- <-. left.
        split; [exact (same_session_trans _ _ _ K1 K2) | eauto]. }
    apply bind_inv in H as [(u & w3 & H3 & H) | (e & H3 & ->)].
    + assert (w3 = w2) as ->.
      { revert H3. unfold User_objects_get, bind, get_world, lift.
        by intros [= _ <-]. }
      right. exists ai, u, w2.
      split; [exact (same_session_trans _ _ _ K1 K2) | done].
    + left. split; [| eauto].
      exact (same_session_trans _ _ _ (same_session_trans _ _ _ K1 K2)
               (keeps_User_objects_get _ _ _ _ H3)).
  - left. split; [| eauto].
    refine (same_session_trans _ _ _ K1 _).
    revert H2. apply keeps_try_except_else; [auto with keeps | | intros a];
      keeps_auto.
Qed.

Lemma same_session_kept w w' : same_session w w' → kept_or_flushed w w'.
Proof. intros (Ha & _ & _ & Hi). split; [done | by left]. Qed.

Lemma finish_login_body_session h identity w r w' :
  finish_login_body h identity w = (r, w') → kept_or_flushed w w'.
Proof.
  intros H.
  apply finish_login_body_inv in H as [[K _] | (ai & u & w1 & K & _ & H)].
  - by apply same_session_kept.
  - apply (kept_or_flushed_after _ _ _ K).
    apply bind_inv in H as [([] & w2 & H1 & H) | (e & H1 & _)].
    + injection H as _ <-. exact (login_session _ _ _ _ H1).
    + exact (login_session _ _ _ _ H1).
Qed.

Lemma finish_login_pipeline_session h identity w r w' :
  _finish_login_pipeline h identity w = (r, w') → kept_or_flushed w w'.
Proof.
  unfold _finish_login_pipeline, atomic.
  destruct (finish_login_body h identity w) as [[a|e] w1] eqn:E;
    intros [= <- <-].
  - exact (finish_login_body_session _ _ _ _ _ E).
  - apply kept_or_flushed_set_db. exact (finish_login_body_session _ _ _ _ _ E).
Qed.

(** ** [finish_pipeline] *)

Lemma finish_pipeline_unfold h w s state identity fl :
  session_auth w = Some s →
  s !! "state" = Some state →
  build_identity (provider h) state = Ok identity →
  s !! "flow" = Some fl →
  finish_pipeline h w =
    if py_eq fl (VInt FLOW_LOGIN) then
      after_resolver (_finish_login_pipeline h identity w)
    else if py_eq fl (VInt FLOW_SETUP_PROVIDER) then
      after_resolver (_finish_setup_pipeline h identity w)
    else (Raise (UnboundLocalError "response"), cleared w).
Proof.
  intros Hs Hst Hid Hfl.
  unfold finish_pipeline, bind at 1.
  unfold session_getitem_auth, bind at 1, get_world. rewrite Hs. cbn [ret].
  unfold bind at 1, getitem at 1. rewrite Hst. cbn [ret].
  unfold bind at 1, lift. rewrite Hid.
  unfold bind at 1, getitem at 1. rewrite Hfl. cbn [ret].
  assert (Hdel : ∀ r w1,
    (session_del_auth ;;; modify (set_is_modified true) ;;; ret r) w1
    = after_resolver (Ok r, w1)).
  { intros r w1.
    unfold after_resolver, session_del_auth, bind, get_world, modify, ret, raise.
    destruct (session_auth w1); reflexivity. }
  destruct (py_eq fl (VInt FLOW_LOGIN)).
  - unfold bind at 1. unfold bind at 1.
    destruct (_finish_login_pipeline h identity w) as [[r|e] w1] eqn:E;
      [| reflexivity].
    exact (Hdel r w1).
  - unfold bind at 1. unfold bind at 1, getitem at 1. rewrite Hfl. cbn [ret].
    destruct (py_eq fl (VInt FLOW_SETUP_PROVIDER)).
    + unfold bind at 1.
      destruct (_finish_setup_pipeline h identity w) as [[r|e] w1] eqn:E;
        [| reflexivity].
      exact (Hdel r w1).
    + unfold bind, ret, session_del_auth, bind, get_world, modify, raise.
      rewrite Hs. reflexivity.
Qed.

(** C1, as the code has it.  When the stored flow is one of the two
    constants and the identity is built, [finish_pipeline] runs the
    resolver of that flow.  If the resolver returns a response and the
    pipeline record is still in the session, the record is deleted, which
    marks the session modified, and that response is returned.  If the
    resolver returns a response and has left no record, the deletion
    raises [KeyError] and the response is lost.  If the resolver raises,
    the exception propagates and [finish_pipeline] touches neither the
    record nor the flags.  The setup resolver always leaves the record in
    place; the login resolver leaves it in place too, unless its [login]
    flushed a session that belonged to another user. *)
Theorem finish_pipeline_clears_on_success h w s state identity fl :
  session_auth w = Some s →
  s !! "state" = Some state →
  build_identity (provider h) state = Ok identity →
  s !! "flow" = Some (VInt fl) →
  fl = FLOW_LOGIN ∨ fl = FLOW_SETUP_PROVIDER →
  let resolver :=
    if fl =? FLOW_LOGIN then _finish_login_pipeline else _finish_setup_pipeline in
  let out := resolver h identity w in
  (∀ r, fst out = Ok r → is_Some (session_auth (snd out)) →
     finish_pipeline h w = (Ok r, cleared (snd out))
     ∧ session_auth (snd (finish_pipeline h w)) = None
     ∧ modified (snd (finish_pipeline h w)) = true
     ∧ is_modified (snd (finish_pipeline h w)) = true)
  ∧ (∀ r, fst out = Ok r → session_auth (snd out) = None →
       finish_pipeline h w = (Raise (KeyError "auth"), snd out))
  ∧ (∀ e, fst out = Raise e →
       finish_pipeline h w = (Raise e, snd out)
       ∧ is_modified (snd (finish_pipeline h w)) = is_modified w)
  ∧ (session_auth (snd out) = Some s
     ∨ (fl = FLOW_LOGIN
        ∧ session_auth (snd out) = None
        ∧ ∃ pk uid, session_user w = Some pk
                    ∧ session_user (snd out) = Some uid ∧ pk ≠ uid)).
Proof.
  intros Hs Hst Hid Hfl Hcase resolver out.
  rewrite (finish_pipeline_unfold h w s state identity (VInt fl) Hs Hst Hid Hfl).
  assert (Hk : kept_or_flushed w (snd out)
               ∧ (fl = FLOW_SETUP_PROVIDER → session_auth (snd out) = Some s)).
  { subst out resolver. destruct Hcase as [-> | ->]; cbn [Z.eqb FLOW_LOGIN
      FLOW_SETUP_PROVIDER Pos.eqb].
    - split; [| discriminate].
      destruct (_finish_login_pipeline h identity w) as [r w1] eqn:E.
      exact (finish_login_pipeline_session _ _ _ _ _ E).
    - destruct (_finish_setup_pipeline h identity w) as [r w1] eqn:E.
      destruct (keeps_finish_setup_pipeline _ _ _ _ _ E) as (Ha & Hu & Hm & Hi).
      cbn [snd]. split; [| intros _; congruence].
      split; [done | by left]. }
  assert (Hsel :
    (if py_eq (VInt fl) (VInt FLOW_LOGIN) then
       after_resolver (_finish_login_pipeline h identity w)
     else if py_eq (VInt fl) (VInt FLOW_SETUP_PROVIDER) then
       after_resolver (_finish_setup_pipeline h identity w)
     else (Raise (UnboundLocalError "response"), cleared w))
    = after_resolver out).
  { subst out resolver. destruct Hcase as [-> | ->]; reflexivity. }
  rewrite Hsel. clear Hsel. destruct Hk as [[Hi Hrec] Hsetup].
  destruct out as [[r|e] w1] eqn:E; cbn [fst snd after_resolver] in *.
  - split; [| split; [| split]].
    + intros x [= <-] [s1 Hs1]. by rewrite Hs1.
    + intros x [= <-] Hn. by rewrite Hn.
    + intros x [=].
    + destruct Hrec as [Hk | Hf].
      * left. congruence.
      * destruct Hcase as [-> | ->]; [right; by split |].
        left. by apply Hsetup.
  - split; [| split; [| split]].
    + intros x [=].
    + intros x [=].
    + by intros x [= <-].
    + destruct Hrec as [Hk | Hf].
      * left. congruence.
      * destruct Hcase as [-> | ->]; [right; by split |].
        left. by apply Hsetup.
Qed.

(** The returning user finishes a login: in a session of their own the
    record is cleared and the redirect returned; in a session that
    belonged to user 99 the identity is updated, [login] flushes the
    session, and the deletion raises. *)
Lemma finish_pipeline_clears_on_success_witness :
  (finish_pipeline Fixture.h_login Fixture.w_known
   = (Ok (HttpResponseRedirect LoginRedirect),
      cleared (snd (_finish_login_pipeline Fixture.h_login Fixture.the_identity
                      Fixture.w_known)))
   ∧ session_auth (snd (finish_pipeline Fixture.h_login Fixture.w_known)) = None
   ∧ modified (snd (finish_pipeline Fixture.h_login Fixture.w_known)) = true
   ∧ is_modified (snd (finish_pipeline Fixture.h_login Fixture.w_known)) = true)
  ∧ finish_pipeline Fixture.h_login Fixture.w_other_user
    = (Raise (KeyError "auth"),
       snd (_finish_login_pipeline Fixture.h_login Fixture.the_identity
              Fixture.w_other_user)).
Proof.
  split.
  - apply (proj1 (finish_pipeline_clears_on_success Fixture.h_login Fixture.w_known
                    (default ∅ (session_auth Fixture.w_login)) (VDict ∅)
                    Fixture.the_identity 1
                    eq_refl eq_refl eq_refl eq_refl (or_introl eq_refl))).
    + vm_compute. reflexivity.
    + vm_compute. eexists. reflexivity.
  - apply (proj1 (proj2 (finish_pipeline_clears_on_success Fixture.h_login
                    Fixture.w_other_user
                    (default ∅ (session_auth Fixture.w_login)) (VDict ∅)
                    Fixture.the_identity 1
                    eq_refl eq_refl eq_refl eq_refl (or_introl eq_refl)))
             (HttpResponseRedirect LoginRedirect)).
    + vm_compute. reflexivity.
    + vm_compute. reflexivity.
Defined.

(** C1 as stated fails.  A first login through a configured provider: no
    identity is bound yet, so the lookup raises [DoesNotExist], the
    [except] branch creates the four rows without binding
    [auth_identity], and [auth_identity.user] raises.  A provider setup on
    a request without [REMOTE_ADDR]: the audit entry cannot be built and
    the resolver raises [KeyError].  Either exception leaves
    [finish_pipeline] before [del request.session['auth']]: the record is
    still in the session and the helper's attribute is not set. *)
Lemma finish_pipeline_failure_keeps_record :
  (fst (_finish_login_pipeline Fixture.h_login Fixture.the_identity Fixture.w_login)
     = Raise (UnboundLocalError "auth_identity")
   ∧ finish_pipeline Fixture.h_login Fixture.w_login
     = (Raise (UnboundLocalError "auth_identity"), Fixture.w_login)
   ∧ is_Some (session_auth Fixture.w_login)
   ∧ is_modified Fixture.w_login = false)
  ∧ (fst (_finish_setup_pipeline Fixture.h_setup Fixture.the_identity
            Fixture.w_setup_no_addr)
     = Raise (KeyError "REMOTE_ADDR")
     ∧ finish_pipeline Fixture.h_setup Fixture.w_setup_no_addr
       = (Raise (KeyError "REMOTE_ADDR"), Fixture.w_setup_no_addr)
     ∧ is_Some (session_auth Fixture.w_setup_no_addr)
     ∧ is_modified Fixture.w_setup_no_addr = false).
Proof.
  split.
  - split; [vm_compute; reflexivity |].
    split; [vm_compute; reflexivity |].
    split; [eexists; reflexivity | reflexivity].
  - split; [vm_compute; reflexivity |].
    split; [vm_compute; reflexivity |].
    split; [eexists; reflexivity | reflexivity].
Qed.

Lemma finish_pipeline_early h w s :
  session_auth w = Some s →
  (∃ state identity, s !! "state" = Some state
                     ∧ build_identity (provider h) state = Ok identity)
  ∨ (∃ e, finish_pipeline h w = (Raise e, w)).
Proof.
  intros Hs.
  destruct (s !! "state") as [state |] eqn:Hst.
  2:{ right. eexists. unfold finish_pipeline, bind at 1.
      unfold session_getitem_auth, bind at 1, get_world. rewrite Hs. cbn [ret].
      unfold bind, getitem. by rewrite Hst. }
  destruct (build_identity (provider h) state) as [identity | e] eqn:Hid.
  2:{ right. eexists. unfold finish_pipeline, bind at 1.
      unfold session_getitem_auth, bind at 1, get_world. rewrite Hs. cbn [ret].
      unfold bind at 1, getitem at 1. rewrite Hst. cbn [ret].
      unfold bind, lift. by rewrite Hid. }
  left. eauto.
Qed.

(** C10.  Both [finish_pipeline] and [error] branch on the flow stored in
    the session record; the helper's own [flow] plays no part.  With a
    stored flow that is neither constant, [finish_pipeline] never returns
    a response: once the identity is built it runs no resolver, removes
    the record, and raises on [return response], which was never bound.
    [error] queues its message and raises on the unbound
    [redirect_uri]. *)
Theorem finish_and_error_branch_on_stored_flow h w s fl message :
  session_auth w = Some s →
  s !! "flow" = Some fl →
  (∀ state identity,
     s !! "state" = Some state →
     build_identity (provider h) state = Ok identity →
     finish_pipeline h w =
       if py_eq fl (VInt FLOW_LOGIN) then
         after_resolver (_finish_login_pipeline h identity w)
       else if py_eq fl (VInt FLOW_SETUP_PROVIDER) then
         after_resolver (_finish_setup_pipeline h identity w)
       else (Raise (UnboundLocalError "response"), cleared w))
  ∧ error h message w =
    ((if py_eq fl (VInt FLOW_LOGIN) then
        Ok (HttpResponseRedirect
              (Reverse "sentry-auth-organization" [org_slug (organization h)]))
      else if py_eq fl (VInt FLOW_SETUP_PROVIDER) then
        Ok (HttpResponseRedirect
              (Reverse "sentry-organization-auth-settings"
                       [org_slug (organization h)]))
      else Raise (UnboundLocalError "redirect_uri")),
     set_flash (flash w ++ ["Authentication error: " +:+ message]) w)
  ∧ (fl ≠ VInt FLOW_LOGIN → fl ≠ VInt FLOW_SETUP_PROVIDER →
     (∃ e, fst (finish_pipeline h w) = Raise e)
     ∧ (∀ state identity,
          s !! "state" = Some state →
          build_identity (provider h) state = Ok identity →
          finish_pipeline h w
          = (Raise (UnboundLocalError "response"), cleared w))).
Proof.
  intros Hs Hfl.
  split; [| split].
  - intros state identity Hst Hid.
    exact (finish_pipeline_unfold h w s state identity fl Hs Hst Hid Hfl).
  - unfold error, bind at 1.
    unfold session_getitem_auth, bind at 1, get_world. rewrite Hs. cbn [ret].
    unfold bind at 1, getitem. rewrite Hfl. cbn [ret].
    unfold bind, messages_error, modify.
    destruct (py_eq fl (VInt FLOW_LOGIN)); [reflexivity |].
    destruct (py_eq fl (VInt FLOW_SETUP_PROVIDER)); reflexivity.
  - intros H1 H2.
    assert (Hodd : ∀ state identity,
      s !! "state" = Some state →
      build_identity (provider h) state = Ok identity →
      finish_pipeline h w = (Raise (UnboundLocalError "response"), cleared w)).
    { intros state identity Hst Hid.
      rewrite (finish_pipeline_unfold h w s state identity fl Hs Hst Hid Hfl).
      unfold py_eq. by rewrite !bool_decide_eq_false_2 by assumption. }
    split; [| exact Hodd].
    destruct (finish_pipeline_early h w s Hs) as [(state & identity & Hst & Hid) | [e He]].
    + eexists. by rewrite (Hodd state identity Hst Hid).
    + eexists. by rewrite He.
Qed.

Lemma finish_and_error_branch_on_stored_flow_witness :
  flow Fixture.h_login = VInt FLOW_LOGIN
  ∧ finish_pipeline Fixture.h_login Fixture.w_odd_flow
    = (Raise (UnboundLocalError "response"), cleared Fixture.w_odd_flow)
  ∧ error Fixture.h_login "denied" Fixture.w_odd_flow
    = (Raise (UnboundLocalError "redirect_uri"),
       set_flash ["Authentication error: denied"] Fixture.w_odd_flow).
Proof.
  destruct (finish_and_error_branch_on_stored_flow Fixture.h_login Fixture.w_odd_flow
              (<["flow" := VInt 5]> (default ∅ (session_auth Fixture.w_login)))
              (VInt 5) "denied" eq_refl eq_refl) as (_ & H2 & H3).
  split; [reflexivity |]. split.
  - apply (proj2 (H3 ltac:(discriminate) ltac:(discriminate))
             (VDict ∅) Fixture.the_identity); reflexivity.
  - exact H2.
Defined.

(** ** [next_step] *)

Lemma py_eq_VInt a b : py_eq (VInt a) (VInt b) = (a =? b).
Proof.
  unfold py_eq. destruct (Z.eqb_spec a b) as [-> | Hne].
  - by rewrite bool_decide_eq_true_2.
  - rewrite bool_decide_eq_false_2; [done | congruence].
Qed.

Lemma next_step_unfold h w s i :
  session_auth w = Some s →
  s !! "idx" = Some (VInt i) →
  next_step h w =
    if i + 1 =? Z.of_nat (length (pipeline h)) then
      finish_pipeline h (bumped s i w)
    else
      match py_index (pipeline h) (VInt (i + 1)) with
      | Ok view => dispatch view (bumped s i w)
      | Raise e => (Raise e, bumped s i w)
      end.
Proof.
  intros Hs Hi.
  unfold next_step, bind at 1.
  unfold session_getitem_auth, bind at 1, get_world. rewrite Hs. cbn [ret].
  unfold bind at 1, getitem. rewrite Hi. cbn [ret].
  unfold bind at 1. cbn [lift py_succ].
  unfold bind at 1, modify at 1. unfold bind at 1, modify at 1.
  rewrite py_eq_VInt. fold (bumped s i w).
  destruct (i + 1 =? Z.of_nat (length (pipeline h))); [reflexivity |].
  unfold bind, lift.
  destruct (py_index (pipeline h) (VInt (i + 1))); reflexivity.
Qed.

Lemma stored_idx_Some w v :
  stored_idx w = Some v ↔ ∃ s, session_auth w = Some s ∧ s !! "idx" = Some v.
Proof.
  unfold stored_idx. destruct (session_auth w) as [s |]; cbn.
  - split; [eauto | by intros (? & [= <-] & ?)].
  - split; [done | by intros (? & ? & ?)].
Qed.

Lemma stored_idx_bumped s i w : stored_idx (bumped s i w) = Some (VInt (i + 1)).
Proof. unfold stored_idx, bumped. cbn. by rewrite lookup_insert_eq. Qed.

Lemma next_step_without_record h w :
  session_auth w = None → next_step h w = (Raise (KeyError "auth"), w).
Proof.
  intros H. unfold next_step, bind at 1.
  unfold session_getitem_auth, bind, get_world. by rewrite H.
Qed.

(** C6 as stated fails.  Without a pipeline record [next_step] raises
    and increments nothing.  On a record whose index is the step count,
    as a finish that raised leaves it, [next_step] stores an index that
    is beyond the last view and raises on the subscript: it neither
    finishes nor dispatches a view.  And on the first step of a login the
    helper's attribute is set while the flag of the session, which was
    not set before the call, is still not set after it. *)
Lemma next_step_raises_and_leaves_session_unmarked :
  (session_auth Fixture.w0 = None
   ∧ next_step Fixture.h_login Fixture.w0 = (Raise (KeyError "auth"), Fixture.w0))
  ∧ (stored_idx Fixture.w_at_end = Some (VInt 2)
     ∧ length (pipeline Fixture.h_login) = 2%nat
     ∧ fst (next_step Fixture.h_login Fixture.w_at_end) = Raise IndexError
     ∧ stored_idx (snd (next_step Fixture.h_login Fixture.w_at_end))
       = Some (VInt 3))
  ∧ (modified Fixture.w_login = false
     ∧ fst (next_step Fixture.h_login Fixture.w_login)
       = Ok (HttpResponse "collect")
     ∧ is_modified (snd (next_step Fixture.h_login Fixture.w_login)) = true
     ∧ modified (snd (next_step Fixture.h_login Fixture.w_login)) = false).
Proof. repeat split; vm_compute; reflexivity. Qed.

(** C6, as the code has it.  Without a pipeline record, or with a record
    that holds no integer index, [next_step] raises and changes nothing.
    On a record that holds the integer index [i] it stores [i + 1]; then,
    if the new index is the length of the pipeline, it is
    [finish_pipeline] on that request; if the new index is the position
    of a view, it is the dispatch of that view on that request; and if
    the new index is beyond the last view, it raises [IndexError] with
    the new index stored.  In every case where the new index is not the
    length, it is the dispatch of what the subscript [pipeline[i + 1]]
    returns, and raises what the subscript raises. *)
Theorem next_step_increments_then_dispatches h w :
  (session_auth w = None → next_step h w = (Raise (KeyError "auth"), w))
  ∧ (∀ s, session_auth w = Some s →
       (s !! "idx" = None → next_step h w = (Raise (KeyError "idx"), w))
       ∧ (∀ v, s !! "idx" = Some v → (∀ i, v ≠ VInt i) →
            next_step h w = (Raise TypeError, w))
       ∧ (∀ i, s !! "idx" = Some (VInt i) →
            let w1 := bumped s i w in
            stored_idx w1 = Some (VInt (i + 1))
            ∧ (i + 1 = Z.of_nat (length (pipeline h)) →
               next_step h w = finish_pipeline h w1)
            ∧ (∀ view, 0 ≤ i + 1 →
                 pipeline h !! Z.to_nat (i + 1) = Some view →
                 next_step h w = dispatch view w1)
            ∧ (Z.of_nat (length (pipeline h)) < i + 1 →
               next_step h w = (Raise IndexError, w1))
            ∧ (i + 1 ≠ Z.of_nat (length (pipeline h)) →
               next_step h w =
                 match py_index (pipeline h) (VInt (i + 1)) with
                 | Ok view => dispatch view w1
                 | Raise e => (Raise e, w1)
                 end))).
Proof.
  split; [apply next_step_without_record |].
  intros s Hs. split; [| split].
  - intros Hi. unfold next_step, bind at 1.
    unfold session_getitem_auth, bind at 1, get_world. rewrite Hs. cbn [ret].
    unfold bind, getitem. by rewrite Hi.
  - intros v Hi Hv. unfold next_step, bind at 1.
    unfold session_getitem_auth, bind at 1, get_world. rewrite Hs. cbn [ret].
    unfold bind at 1, getitem. rewrite Hi. cbn [ret].
    unfold bind, lift. destruct v; try reflexivity. by destruct (Hv z).
  - intros i Hi w1. pose proof (next_step_unfold h w s i Hs Hi) as Hn.
    fold w1 in Hn.
    split; [apply stored_idx_bumped |].
    split; [| split; [| split]].
    + intros Heq. rewrite Hn. apply Z.eqb_eq in Heq. by rewrite Heq.
    + intros view Hpos Hv. rewrite Hn.
      pose proof (lookup_lt_Some _ _ _ Hv) as Hlt.
      destruct (Z.eqb_spec (i + 1) (Z.of_nat (length (pipeline h)))); [lia |].
      unfold py_index.
      destruct (Z.ltb_spec (i + 1) 0); [lia |].
      destruct (Z.leb_spec 0 (i + 1)); [| lia].
      destruct (Z.ltb_spec (i + 1) (Z.of_nat (length (pipeline h)))); [| lia].
      cbn. by rewrite Hv.
    + intros Hgt. rewrite Hn.
      destruct (Z.eqb_spec (i + 1) (Z.of_nat (length (pipeline h)))); [lia |].
      unfold py_index.
      destruct (Z.ltb_spec (i + 1) 0); [lia |].
      destruct (Z.ltb_spec (i + 1) (Z.of_nat (length (pipeline h)))); [lia |].
      by rewrite andb_false_r.
    + intros Hne. rewrite Hn. apply Z.eqb_neq in Hne. by rewrite Hne.
Qed.

Lemma next_step_increments_then_dispatches_witness :
  stored_idx (bumped (default ∅ (session_auth Fixture.w_login)) (-1) Fixture.w_login)
    = Some (VInt 0)
  ∧ next_step Fixture.h_login Fixture.w_login
    = dispatch (Fixture.page "collect")
        (bumped (default ∅ (session_auth Fixture.w_login)) (-1) Fixture.w_login)
  ∧ next_step Fixture.h_login Fixture.w0 = (Raise (KeyError "auth"), Fixture.w0).
Proof.
  destruct (next_step_increments_then_dispatches Fixture.h_login Fixture.w_login)
    as [_ H].
  destruct (H (default ∅ (session_auth Fixture.w_login)) eq_refl) as (_ & _ & Hi).
  destruct (Hi (-1) eq_refl) as (H1 & _ & H3 & _).
  split; [exact H1 |]. split.
  - apply H3; [lia | reflexivity].
  - apply (proj1 (next_step_increments_then_dispatches Fixture.h_login Fixture.w0)).
    reflexivity.
Defined.

(** ** The resolvers *)

(** C8.  Each resolver runs under [transaction.atomic]: when it raises,
    wherever in its sequence of writes, the database is what it was
    before the call. *)
Theorem resolver_failure_rolls_back h identity w e w' :
  _finish_login_pipeline h identity w = (Raise e, w')
  ∨ _finish_setup_pipeline h identity w = (Raise e, w') →
  db w' = db w.
Proof.
  unfold _finish_login_pipeline, _finish_setup_pipeline, atomic.
  intros [H | H].
  - destruct (finish_login_body h identity w) as [[r|e'] w1];
      [discriminate | by injection H as <- <-].
  - destruct (finish_setup_body h identity w) as [[r|e'] w1];
      [discriminate | by injection H as <- <-].
Qed.

(** The storage fails on the third write of a first login: the user and
    the identity written before it are gone too. *)
Lemma resolver_failure_rolls_back_witness :
  fst (_finish_login_pipeline Fixture.h_login Fixture.the_identity Fixture.w_failing)
    = Raise DatabaseError
  ∧ db (snd (_finish_login_pipeline Fixture.h_login Fixture.the_identity
               Fixture.w_failing))
    = db Fixture.w_failing.
Proof.
  split; [vm_compute; reflexivity |].
  apply (resolver_failure_rolls_back Fixture.h_login Fixture.the_identity
           Fixture.w_failing DatabaseError).
  left. vm_compute. reflexivity.
Defined.

(** Without the decorator the same failure leaves the first two rows. *)
Example login_body_alone_is_partial :
  let w' := snd (finish_login_body Fixture.h_login Fixture.the_identity
                   Fixture.w_failing) in
  length (users (db w')) = 1%nat
  ∧ length (auth_identities (db w')) = 1%nat
  ∧ members (db w') = [].
Proof. vm_compute. done. Qed.

(** The setup resolver, when the request carries no remote address: the
    provider and the identity are written, the audit entry is not, and
    the transaction takes the two rows back. *)
Example setup_failure_rolls_back :
  let w := Fixture.w_setup_no_addr in
  _finish_setup_pipeline Fixture.h_setup Fixture.the_identity w
  = (Raise (KeyError "REMOTE_ADDR"), w)
  ∧ length (auth_providers
              (db (snd (finish_setup_body Fixture.h_setup Fixture.the_identity w))))
    = 2%nat.
Proof. vm_compute. done. Qed.

(** C7 at its failing input.  The identity is bound already, its stored
    data are [{'team': 'ops'}], and the provider sends an identity with
    no ['data'] entry.  The comparison reads [identity.get('data', {})]
    and finds a difference; the update reads [identity['data']] and
    raises [KeyError]: nothing is updated and no redirect is returned. *)
Theorem login_update_without_data_raises :
  Fixture.identity_no_data !! "data" = None
  ∧ ai_data Fixture.id_one ≠ dict_get_or Fixture.identity_no_data "data" (VDict ∅)
  ∧ _finish_login_pipeline Fixture.h_login Fixture.identity_no_data Fixture.w_known
    = (Raise (KeyError "data"), Fixture.w_known).
Proof.
  split; [reflexivity |].
  split; [vm_compute; discriminate |].
  vm_compute. reflexivity.
Qed.

(** The same request with a ['data'] entry: the row is updated in place,
    the time of the login is written to the row of the user, no row is
    added anywhere, and the login redirect is returned. *)
Example login_update_with_data :
  let out := _finish_login_pipeline Fixture.h_login Fixture.the_identity
               Fixture.w_known in
  fst out = Ok (HttpResponseRedirect LoginRedirect)
  ∧ auth_identities (db (snd out))
    = [with_data (VDict (<["team" := SStr "core"]> ∅)) Fixture.id_one]
  ∧ users (db (snd out)) = [with_last_login 1000 Fixture.u_one]
  ∧ members (db (snd out)) = []
  ∧ audit_log (db (snd out)) = []
  ∧ session_user (snd out) = Some 1
  ∧ session_auth (snd out) = session_auth Fixture.w_known.
Proof. vm_compute. done. Qed.

(** In a session that belongs to user 99 the same login succeeds and
    takes the pipeline record with it. *)
Example login_in_the_session_of_another_user :
  let out := _finish_login_pipeline Fixture.h_login Fixture.the_identity
               Fixture.w_other_user in
  session_user Fixture.w_other_user = Some 99
  ∧ fst out = Ok (HttpResponseRedirect LoginRedirect)
  ∧ session_user (snd out) = Some 1
  ∧ session_auth (snd out) = None.
Proof. vm_compute. done. Qed.

(** ** The provider entries of the record *)

(** C2 as stated fails.  A helper that has an auth provider writes its
    id under ['ap'] and the provider key under ['p']: both are set. *)
Lemma init_pipeline_sets_both_entries :
  ∃ s, session_auth (snd (init_pipeline Fixture.h_login Fixture.w0)) = Some s
       ∧ s !! "ap" = Some (VInt 1)
       ∧ s !! "p" = Some (VStr "dummy")
       ∧ exactly_one_set s = false.
Proof. eexists. split; [reflexivity |]. vm_compute. done. Qed.

(** C2, as the code has it.  In the record that [init_pipeline] writes,
    ['p'] is always set and ['ap'] is set exactly when the helper has an
    auth provider, so exactly one is set only for a helper without auth
    provider.  [next_step] and [bind_state] leave both entries of a
    record as they are: the request on which [next_step] goes on, to
    finish or to dispatch the view, and which it leaves when the
    subscript raises, holds the record with the same two entries; so does
    the request that [bind_state] leaves, whether it returns or raises. *)
Theorem init_pipeline_provider_entries h w :
  ∃ s, session_auth (snd (init_pipeline h w)) = Some s
       ∧ is_set (s !! "p") = true
       ∧ (is_set (s !! "ap") = true ↔ is_Some (auth_provider h))
       ∧ (exactly_one_set s = true ↔ auth_provider h = None)
       ∧ (∀ h' w1 s1 i, session_auth w1 = Some s1 →
            s1 !! "idx" = Some (VInt i) →
            ∃ w2 s2,
              session_auth w2 = Some s2
              ∧ s2 !! "ap" = s1 !! "ap" ∧ s2 !! "p" = s1 !! "p"
              ∧ next_step h' w1 =
                  (if i + 1 =? Z.of_nat (length (pipeline h')) then
                     finish_pipeline h' w2
                   else
                     match py_index (pipeline h') (VInt (i + 1)) with
                     | Ok view => dispatch view w2
                     | Raise e => (Raise e, w2)
                     end))
       ∧ (∀ k v r w1 s1 w2, session_auth w1 = Some s1 →
            bind_state k v w1 = (r, w2) →
            ∃ s2, session_auth w2 = Some s2
                  ∧ s2 !! "ap" = s1 !! "ap" ∧ s2 !! "p" = s1 !! "p").
Proof.
  eexists. split; [reflexivity |].
  rewrite lookup_insert_eq.
  rewrite lookup_insert_ne, lookup_insert_eq by done.
  split; [reflexivity |]. split; [| split; [| split]].
  - destruct (auth_provider h); cbn; split; done.
  - unfold exactly_one_set. rewrite lookup_insert_eq.
    rewrite lookup_insert_ne, lookup_insert_eq by done.
    destruct (auth_provider h); cbn; split; done.
  - intros h' w1 s1 i Hs Hi. exists (bumped s1 i w1). eexists.
    split; [reflexivity |].
    rewrite !(lookup_insert_ne _ "idx") by done.
    split; [done |]. split; [done |].
    exact (next_step_unfold h' w1 s1 i Hs Hi).
  - intros k v r w1 s1 w2 Hs. unfold bind_state, bind at 1.
    unfold session_getitem_auth, bind at 1, get_world. rewrite Hs. cbn [ret].
    unfold bind at 1, getitem.
    destruct (s1 !! "state") as [[| z | x | d] |]; cbn [ret raise].
    1-3, 5: by (intros [= _ <-]; exists s1).
    unfold bind, modify. intros [= _ <-]. eexists. split; [reflexivity |].
    by rewrite !(lookup_insert_ne _ "state") by done.
Qed.

(** The first step of a login and a value bound to its state: the
    record goes on with the auth provider 1 and the key of the
    provider. *)
Example provider_entries_through_a_login :
  ∃ s, session_auth
         (snd (bind_state "token" (SStr "t0k")
                 (snd (next_step Fixture.h_login Fixture.w_login)))) = Some s
       ∧ s !! "ap" = Some (VInt 1) ∧ s !! "p" = Some (VStr "dummy").
Proof. eexists. split; [reflexivity |]. vm_compute. done. Qed.

(** ** [get_for_request] *)

Lemma get_row_missing {A} model (pk : A → Z) rows z :
  filter (λ r, pk r = z) rows = [] →
  get_row model pk rows z = Raise (DoesNotExist model).
Proof. intros H. unfold get_row. by rewrite H. Qed.

Lemma AuthProvider_objects_get_world v w :
  snd (AuthProvider_objects_get v w) = w.
Proof. reflexivity. Qed.

Lemma AuthProvider_objects_get_eq v w :
  AuthProvider_objects_get v w
  = (get_by_id "AuthProvider" ap_id (auth_providers (db w)) v, w).
Proof. reflexivity. Qed.

Lemma Organization_objects_get_eq v w :
  Organization_objects_get v w
  = (get_by_id "Organization" org_id (organizations (db w)) v, w).
Proof. reflexivity. Qed.

Lemma get_for_request_unfold manager w fl :
  let session := default ∅ (session_auth w) in
  truthy (dict_get session "org") = true →
  session !! "flow" = Some fl →
  get_for_request manager w =
    (auth_provider <~
       (if truthy (dict_get session "ap") then
          ap <~ AuthProvider_objects_get (dict_get session "ap") ;;
          ret (Some (Some ap))
        else if truthy (dict_get session "p") then ret (Some None)
        else ret None) ;;
     org_v <~ getitem session "org" ;;
     organization <~ Organization_objects_get org_v ;;
     match auth_provider with
     | None => raise (UnboundLocalError "auth_provider")
     | Some ap =>
         h <~ lift (AuthHelper_init manager organization fl ap
                      (dict_get session "p")) ;;
         ret (Some h)
     end) w.
Proof.
  intros session Horg Hfl.
  unfold get_for_request. unfold bind at 1, get_world. fold session.
  rewrite Horg. cbn [negb]. unfold bind at 1, getitem at 1. by rewrite Hfl.
Qed.

Lemma truthy_dict_get s k :
  truthy (dict_get s k) = true → s !! k = Some (dict_get s k).
Proof. unfold dict_get. by destruct (s !! k). Qed.

Lemma truthy_VInt z : z ≠ 0 → truthy (VInt z) = true.
Proof. intros H. cbn. by destruct (Z.eqb_spec z 0). Qed.

(** C3 as stated fails.  The record names organization 7, which is not
    in the database: [Organization.objects.get] raises and nothing
    catches it. *)
Lemma get_for_request_raises_on_stale_org :
  (∃ s, session_auth Fixture.w_stale_org = Some s ∧ s !! "org" = Some (VInt 7))
  ∧ filter (λ o, org_id o = 7) (organizations (db Fixture.w_stale_org)) = []
  ∧ get_for_request Fixture.manager Fixture.w_stale_org
    = (Raise (DoesNotExist "Organization"), Fixture.w_stale_org).
Proof.
  split; [eexists; split; [reflexivity | vm_compute; reflexivity] |].
  split; vm_compute; reflexivity.
Qed.

(** C3, as the code has it.  [get_for_request] returns [None], raising
    nothing and changing nothing, when the session has no pipeline
    record or the record has no truthy ['org'].  On a record with a truthy
    ['org'] and a flow, a reference that does not resolve makes it raise
    what the lookup raises and change nothing: the exception of the
    auth-provider lookup when ['ap'] is truthy and does not resolve, and
    otherwise the exception of the organization lookup.  For an id that
    matches no row, that exception is [DoesNotExist]: of the
    organization whenever the auth provider resolves or ['ap'] is falsy,
    of the auth provider whenever ['ap'] is a non-zero id without row. *)
Theorem get_for_request_absent_or_raises manager w :
  let session := default ∅ (session_auth w) in
  let org := dict_get session "org" in
  let ap := dict_get session "ap" in
  (session_auth w = None → get_for_request manager w = (Ok None, w))
  ∧ (truthy org = false → get_for_request manager w = (Ok None, w))
  ∧ (∀ flow e, truthy org = true → session !! "flow" = Some flow →
       get_by_id "Organization" org_id (organizations (db w)) org = Raise e →
       (∃ e', get_for_request manager w = (Raise e', w))
       ∧ (truthy ap = false
          ∨ (∃ p, get_by_id "AuthProvider" ap_id (auth_providers (db w)) ap
                  = Ok p) →
          get_for_request manager w = (Raise e, w)))
  ∧ (∀ flow e, truthy org = true → session !! "flow" = Some flow →
       truthy ap = true →
       get_by_id "AuthProvider" ap_id (auth_providers (db w)) ap = Raise e →
       get_for_request manager w = (Raise e, w))
  ∧ (∀ z flow, session !! "org" = Some (VInt z) → z ≠ 0 →
       session !! "flow" = Some flow →
       filter (λ o, org_id o = z) (organizations (db w)) = [] →
       truthy ap = false
       ∨ (∃ p, get_by_id "AuthProvider" ap_id (auth_providers (db w)) ap
               = Ok p) →
       get_for_request manager w = (Raise (DoesNotExist "Organization"), w))
  ∧ (∀ z a flow, session !! "org" = Some (VInt z) → z ≠ 0 →
       session !! "flow" = Some flow →
       session !! "ap" = Some (VInt a) → a ≠ 0 →
       filter (λ p, ap_id p = a) (auth_providers (db w)) = [] →
       get_for_request manager w = (Raise (DoesNotExist "AuthProvider"), w)).
Proof.
  intros session org ap.
  assert (Habsent : truthy org = false →
                    get_for_request manager w = (Ok None, w)).
  { intros Hf. unfold get_for_request, bind, get_world. fold session org.
    by rewrite Hf. }
  assert (Horgs : ∀ flow e, truthy org = true → session !! "flow" = Some flow →
    get_by_id "Organization" org_id (organizations (db w)) org = Raise e →
    (∃ e', get_for_request manager w = (Raise e', w))
    ∧ (truthy ap = false
       ∨ (∃ p, get_by_id "AuthProvider" ap_id (auth_providers (db w)) ap = Ok p) →
       get_for_request manager w = (Raise e, w))).
  { intros flow e Horg Hflow Hget.
    rewrite (get_for_request_unfold manager w flow Horg Hflow).
    fold session ap.
    assert (Htail : ∀ pre : option (option AuthProvider),
      (org_v <~ getitem session "org" ;;
       organization <~ Organization_objects_get org_v ;;
       match pre with
       | None => raise (UnboundLocalError "auth_provider")
       | Some ap =>
           h <~ lift (AuthHelper_init manager organization flow ap
                        (dict_get session "p")) ;;
           ret (Some h)
       end) w
      = (Raise e, w)).
    { intros pre.
      rewrite (bind_Ok _ _ w org w).
      2:{ unfold getitem. by rewrite (truthy_dict_get session "org" Horg). }
      apply bind_Raise. by rewrite Organization_objects_get_eq, Hget. }
    destruct (truthy ap) eqn:Hap.
    - destruct (get_by_id "AuthProvider" ap_id (auth_providers (db w)) ap)
        as [p | e1] eqn:Hp.
      + rewrite (bind_Ok _ _ w (Some (Some p)) w).
        2:{ rewrite (bind_Ok _ _ w p w); [reflexivity |].
            by rewrite AuthProvider_objects_get_eq, Hp. }
        split; [eexists |]; intros; exact (Htail (Some (Some p))).
      + rewrite (bind_Raise _ _ w e1 w).
        2:{ apply bind_Raise. by rewrite AuthProvider_objects_get_eq, Hp. }
        split; [by eexists |]. intros [H | [p H]]; discriminate H.
    - destruct (truthy (dict_get session "p")).
      + rewrite (bind_Ok _ _ w (Some None) w) by reflexivity.
        split; [eexists |]; intros; exact (Htail (Some None)).
      + rewrite (bind_Ok _ _ w None w) by reflexivity.
        split; [eexists |]; intros; exact (Htail None). }
  assert (Haps : ∀ flow e, truthy org = true → session !! "flow" = Some flow →
    truthy ap = true →
    get_by_id "AuthProvider" ap_id (auth_providers (db w)) ap = Raise e →
    get_for_request manager w = (Raise e, w)).
  { intros flow e Horg Hflow Hap Hget.
    rewrite (get_for_request_unfold manager w flow Horg Hflow).
    fold session ap. rewrite Hap.
    apply bind_Raise, bind_Raise. by rewrite AuthProvider_objects_get_eq, Hget. }
  split; [| split; [exact Habsent | split; [exact Horgs | split; [exact Haps |]]]].
  - intros Hn. apply Habsent. subst org session. by rewrite Hn.
  - split.
    + intros z flow Horg Hz Hflow Hnone Hap.
      assert (Ho : org = VInt z) by (subst org; unfold dict_get; by rewrite Horg).
      apply (Horgs flow); [rewrite Ho; by apply truthy_VInt | done | | done].
      rewrite Ho. cbn [get_by_id]. by apply get_row_missing.
    + intros z a flow Horg Hz Hflow Hap Ha Hnone.
      assert (Ho : org = VInt z) by (subst org; unfold dict_get; by rewrite Horg).
      assert (Hp : ap = VInt a) by (subst ap; unfold dict_get; by rewrite Hap).
      apply (Haps flow); [rewrite Ho; by apply truthy_VInt | done | |].
      * rewrite Hp. by apply truthy_VInt.
      * rewrite Hp. cbn [get_by_id]. by apply get_row_missing.
Qed.

(** No record; a setup record with a stale organization; a login record
    with a stale organization, whose auth provider resolves. *)
Lemma get_for_request_absent_or_raises_witness :
  get_for_request Fixture.manager Fixture.w0 = (Ok None, Fixture.w0)
  ∧ get_for_request Fixture.manager Fixture.w_stale_org
    = (Raise (DoesNotExist "Organization"), Fixture.w_stale_org)
  ∧ get_for_request Fixture.manager Fixture.w_stale_org_login
    = (Raise (DoesNotExist "Organization"), Fixture.w_stale_org_login).
Proof.
  split; [| split].
  - apply (proj1 (get_for_request_absent_or_raises Fixture.manager Fixture.w0)).
    reflexivity.
  - destruct (get_for_request_absent_or_raises Fixture.manager Fixture.w_stale_org)
      as (_ & _ & _ & _ & H5 & _).
    apply (H5 7 (VInt 2)); first [lia | vm_compute; reflexivity | idtac].
    left. reflexivity.
  - destruct (get_for_request_absent_or_raises Fixture.manager
                Fixture.w_stale_org_login)
      as (_ & _ & _ & _ & H5 & _).
    apply (H5 7 (VInt 1)); first [lia | vm_compute; reflexivity | idtac].
    right. exists Fixture.acme_sso. reflexivity.
Defined.

(** A record whose references resolve gives the helper back. *)
Example get_for_request_resumes :
  get_for_request Fixture.manager Fixture.w_login
  = (Ok (Some Fixture.h_login), Fixture.w_login).
Proof. vm_compute. reflexivity. Qed.

(** Ids that were stored as strings are read as the integers they
    spell; a string that spells no integer is refused. *)
Example get_for_request_reads_string_ids :
  get_for_request Fixture.manager Fixture.w_string_ids
  = (Ok (Some Fixture.h_login), Fixture.w_string_ids)
  ∧ get_by_id "Organization" org_id [Fixture.acme] (VStr "-1")
    = Raise (DoesNotExist "Organization")
  ∧ get_by_id "Organization" org_id [Fixture.acme] (VStr "one")
    = Raise ValueError.
Proof. repeat split; vm_compute; reflexivity. Qed.

(** ** The signature *)

Lemma append_String a x t : String a x +:+ t = String a (x +:+ t).
Proof. reflexivity. Qed.

Lemma append_empty t : "" +:+ t = t.
Proof. reflexivity. Qed.

Lemma length_append x t :
  String.length (x +:+ t) = (String.length x + String.length t)%nat.
Proof.
  induction x as [| a x IH]; [reflexivity |].
  rewrite append_String. cbn [String.length]. by rewrite IH.
Qed.

Lemma append_inv_same_length x y t t' :
  String.length x = String.length y → x +:+ t = y +:+ t' → x = y ∧ t = t'.
Proof.
  revert y. induction x as [| a x IH]; intros [| b y] Hlen; try discriminate.
  - by rewrite !append_empty.
  - rewrite !append_String. intros [= -> H].
    injection Hlen as Hlen. destruct (IH y Hlen H) as [-> ->]. done.
Qed.

Lemma append_inv_tail x y t : x +:+ t = y +:+ t → x = y.
Proof.
  intros H. apply (append_inv_same_length x y t t); [| done].
  apply (f_equal String.length) in H. rewrite !length_append in H. lia.
Qed.

Lemma join_cons x y l : join (x :: y :: l) = x +:+ String " " (join (y :: l)).
Proof. reflexivity. Qed.

Lemma join_app_cons_inv pre x y post :
  join (pre ++ x :: post) = join (pre ++ y :: post) → x = y.
Proof.
  induction pre as [| p pre IH]; cbn [app].
  - destruct post as [| q post]; [done |].
    rewrite !join_cons. apply append_inv_tail.
  - destruct pre as [| p' pre]; cbn [app] in *.
    + rewrite !join_cons. intros H. apply String.app_inj in H.
      injection H as H. by apply IH.
    + rewrite !join_cons. intros H. apply String.app_inj in H.
      injection H as H. by apply IH.
Qed.

Lemma space_free_String a x : space_free (String a x) → a ≠ " "%char ∧ space_free x.
Proof.
  unfold space_free. cbn [list_ascii_of_string]. rewrite not_elem_of_cons.
  intros [H1 H2]. split; [congruence | done].
Qed.

Lemma split_at_space x y s t :
  space_free x → space_free y →
  x +:+ String " " s = y +:+ String " " t → x = y ∧ s = t.
Proof.
  revert y. induction x as [| a x IH]; intros [| b y] Hx Hy.
  - rewrite !append_empty. by intros [= ->].
  - rewrite append_empty, append_String. intros [= <- _].
    by destruct (space_free_String _ _ Hy).
  - rewrite append_empty, append_String. intros [= -> _].
    by destruct (space_free_String _ _ Hx).
  - rewrite !append_String. intros [= -> H].
    destruct (space_free_String _ _ Hx) as [_ Hx'].
    destruct (space_free_String _ _ Hy) as [_ Hy'].
    destruct (IH y Hx' Hy' H) as [-> ->]. done.
Qed.

Lemma join_inj_space_free l1 l2 :
  length l1 = length l2 → Forall space_free l1 → Forall space_free l2 →
  join l1 = join l2 → l1 = l2.
Proof.
  revert l2. induction l1 as [| x l1 IH]; intros [| y l2] Hlen H1 H2;
    try discriminate; [done |].
  injection Hlen as Hlen.
  apply Forall_cons in H1 as [Hx H1]. apply Forall_cons in H2 as [Hy H2].
  destruct l1 as [| x' l1], l2 as [| y' l2]; try discriminate.
  - cbn. by intros ->.
  - rewrite !join_cons. intros H.
    destruct (split_at_space _ _ _ _ Hx Hy H) as [-> H'].
    f_equal. by apply IH.
Qed.

(** C5 as stated fails, for both kinds of change.  Replacing the single
    identifier [collision_a] by [collision_b] keeps the signature: the two
    strings have the same MD5 digest.  Reordering ["a"; "a a"] into
    ["a a"; "a"] keeps it too: both join to ["a a a"]. *)
Lemma signature_unchanged_by_some_changes :
  (Fixture.collision_a ≠ Fixture.collision_b
   ∧ compute_signature [Fixture.page Fixture.collision_a]
     = compute_signature [Fixture.page Fixture.collision_b])
  ∧ (["a"; "a a"] ≠ ["a a"; "a"]
     ∧ Permutation ["a"; "a a"] ["a a"; "a"]
     ∧ compute_signature [Fixture.page "a"; Fixture.page "a a"]
       = compute_signature [Fixture.page "a a"; Fixture.page "a"]).
Proof.
  split; split.
  - intros H. apply (f_equal (String.get 35)) in H. vm_compute in H. discriminate.
  - vm_compute. reflexivity.
  - discriminate.
  - split; [apply perm_swap | reflexivity].
Qed.

(** C5, as the code has it.  The signature is the MD5 hex digest of the
    identifiers joined by single spaces, so it is a function of the
    ordered identifiers.  Changing one identifier always changes the
    joined string, and so does any reordering that changes the sequence
    when no identifier contains a space; two sequences get different
    signatures exactly when their joined strings have different digests. *)
Theorem signature_follows_joined_identifiers :
  (∀ p1 p2, map get_ident p1 = map get_ident p2 →
     compute_signature p1 = compute_signature p2)
  ∧ (∀ pre x y post, get_ident x ≠ get_ident y →
       join (map get_ident (pre ++ x :: post))
       ≠ join (map get_ident (pre ++ y :: post)))
  ∧ (∀ p1 p2, Permutation (map get_ident p1) (map get_ident p2) →
       Forall space_free (map get_ident p1) →
       map get_ident p1 ≠ map get_ident p2 →
       join (map get_ident p1) ≠ join (map get_ident p2))
  ∧ (∀ p1 p2, compute_signature p1 ≠ compute_signature p2 ↔
       MD5.hexdigest (join (map get_ident p1))
       ≠ MD5.hexdigest (join (map get_ident p2))).
Proof.
  split; [| split; [| split]].
  - intros p1 p2 H. unfold compute_signature. by rewrite H.
  - intros pre x y post Hne H. apply Hne.
    rewrite !map_app in H. cbn [map] in H. by apply join_app_cons_inv in H.
  - intros p1 p2 Hperm Hfree Hne H. apply Hne.
    apply join_inj_space_free; [by apply Permutation_length | done | | done].
    by rewrite <- Hperm.
  - intros p1 p2. reflexivity.
Qed.

Lemma signature_follows_joined_identifiers_witness :
  join (map get_ident [Fixture.page "collect"; Fixture.page "confirm"])
  ≠ join (map get_ident [Fixture.page "collect"; Fixture.page "approve"])
  ∧ join (map get_ident [Fixture.page "collect"; Fixture.page "confirm"])
    ≠ join (map get_ident [Fixture.page "confirm"; Fixture.page "collect"]).
Proof.
  destruct signature_follows_joined_identifiers as (_ & H2 & H3 & _).
  split.
  - apply (H2 [Fixture.page "collect"] (Fixture.page "confirm")
              (Fixture.page "approve") []). discriminate.
  - apply H3; [apply perm_swap | | discriminate].
    repeat constructor; unfold space_free; cbn;
      rewrite !elem_of_cons, elem_of_nil; intuition discriminate.
Defined.

(** The scenario of the specification. *)
Example signature_collect_confirm :
  compute_signature [Fixture.page "collect"; Fixture.page "confirm"]
  = "2fd03769397df35df17049107afee607".
Proof. vm_compute. reflexivity. Qed.

(** ** [pipeline_is_valid] *)

Lemma AuthHelper_init_signature manager org fl ap key h :
  AuthHelper_init manager org fl ap key = Ok h →
  signature h = compute_signature (pipeline h).
Proof.
  unfold AuthHelper_init.
  destruct (negb _); [discriminate |].
  destruct (match ap with Some _ => _ | None => _ end); [| discriminate].
  destruct (py_eq fl (VInt FLOW_LOGIN)); [by intros [= <-] |].
  destruct (py_eq fl (VInt FLOW_SETUP_PROVIDER)); [by intros [= <-] | discriminate].
Qed.

(** C4 as stated fails.  The record was signed over the one-view
    pipeline ["a b"]; after the deployment the provider resolves to the
    two views ["a"] and ["b"].  The sequences differ, both sign as the
    digest of ["a b"], and [pipeline_is_valid] returns true. *)
Lemma pipeline_is_valid_accepts_changed_sequence :
  AuthHelper_init Fixture.manager_before Fixture.acme (VInt FLOW_LOGIN)
    (Some Fixture.acme_sso) VNone = Ok Fixture.h_before
  ∧ Fixture.w_before
    = Fixture.next_request (snd (init_pipeline Fixture.h_before Fixture.w0))
  ∧ get_for_request Fixture.manager_after Fixture.w_before
    = (Ok (Some Fixture.h_after), Fixture.w_before)
  ∧ map get_ident (pipeline Fixture.h_before) = ["a b"]
  ∧ map get_ident (pipeline Fixture.h_after) = ["a"; "b"]
  ∧ pipeline_is_valid Fixture.h_after Fixture.w_before = (Ok true, Fixture.w_before).
Proof. repeat split; vm_compute; reflexivity. Qed.

(** C4, as the code has it.  With a record whose ['sig'] was computed
    over the sequence [stored], a helper whose signature is that of its
    pipeline is valid exactly when the two signatures (the MD5 digests of
    the space-joined identifiers) are equal: it is valid whenever the two
    sequences of identifiers are equal, and invalid whenever the digests
    differ. *)
Theorem pipeline_is_valid_compares_signatures h w s stored :
  session_auth w = Some s →
  s !! "sig" = Some (VStr (compute_signature stored)) →
  signature h = compute_signature (pipeline h) →
  pipeline_is_valid h w
    = (Ok (bool_decide (compute_signature stored = compute_signature (pipeline h))), w)
  ∧ (map get_ident stored = map get_ident (pipeline h) →
     pipeline_is_valid h w = (Ok true, w))
  ∧ (compute_signature stored ≠ compute_signature (pipeline h) →
     pipeline_is_valid h w = (Ok false, w)).
Proof.
  intros Hs Hsig Hh.
  assert (Hv : pipeline_is_valid h w
    = (Ok (bool_decide (compute_signature stored = compute_signature (pipeline h))), w)).
  { unfold pipeline_is_valid, bind, get_world. rewrite Hs. cbn [default from_option id].
    rewrite bool_decide_eq_false_2.
    2:{ intros ->. by rewrite lookup_empty in Hsig. }
    unfold ret, py_eq, dict_get. rewrite Hsig, Hh. cbn [default from_option id].
    do 2 f_equal. apply bool_decide_ext. split; congruence. }
  split; [exact Hv |]. split.
  - intros Heq. rewrite Hv. rewrite bool_decide_eq_true_2; [done |].
    unfold compute_signature. by rewrite Heq.
  - intros Hne. rewrite Hv. by rewrite bool_decide_eq_false_2.
Qed.

Lemma pipeline_is_valid_compares_signatures_witness :
  pipeline_is_valid Fixture.h_login Fixture.w_login = (Ok true, Fixture.w_login)
  ∧ pipeline_is_valid Fixture.h_login Fixture.w_before = (Ok false, Fixture.w_before).
Proof.
  split.
  - apply (pipeline_is_valid_compares_signatures Fixture.h_login Fixture.w_login
             (default ∅ (session_auth Fixture.w_login)) (pipeline Fixture.h_login));
      reflexivity.
  - apply (pipeline_is_valid_compares_signatures Fixture.h_login Fixture.w_before
             (default ∅ (session_auth Fixture.w_before)) (pipeline Fixture.h_before));
      try reflexivity.
    vm_compute. discriminate.
Defined.

(** ** Walking the pipeline *)

Lemma py_index_lookup {A} (l : list A) (k : nat) x :
  l !! k = Some x → py_index l (VInt (Z.of_nat k)) = Ok x.
Proof.
  intros H. pose proof (lookup_lt_Some _ _ _ H) as Hlt. unfold py_index.
  destruct (Z.ltb_spec (Z.of_nat k) 0); [lia |].
  destruct (Z.leb_spec 0 (Z.of_nat k)); [| lia].
  destruct (Z.ltb_spec (Z.of_nat k) (Z.of_nat (length l))); [| lia].
  cbn. by rewrite Nat2Z.id, H.
Qed.

Lemma finish_pipeline_ok_clears h w r w' :
  finish_pipeline h w = (Ok r, w') → session_auth w' = None ∧ is_modified w' = true.
Proof.
  destruct (session_auth w) as [s |] eqn:Hs.
  2:{ unfold finish_pipeline, bind at 1.
      unfold session_getitem_auth, bind, get_world. by rewrite Hs. }
  destruct (finish_pipeline_early h w s Hs)
    as [(state & identity & Hst & Hid) | [e ->]]; [| discriminate].
  destruct (s !! "flow") as [fl |] eqn:Hfl.
  2:{ unfold finish_pipeline, bind at 1.
      unfold session_getitem_auth, bind at 1, get_world. rewrite Hs. cbn [ret].
      unfold bind at 1, getitem at 1. rewrite Hst. cbn [ret].
      unfold bind at 1, lift. rewrite Hid.
      unfold bind, getitem. by rewrite Hfl. }
  rewrite (finish_pipeline_unfold h w s state identity fl Hs Hst Hid Hfl).
  assert (Hafter : ∀ out, after_resolver out = (Ok r, w') →
                           session_auth w' = None ∧ is_modified w' = true).
  { intros [[r'|e] w1]; cbn [after_resolver]; [| discriminate].
    destruct (session_auth w1); [by intros [= _ <-] | discriminate]. }
  destruct (py_eq fl (VInt FLOW_LOGIN)); [apply Hafter |].
  destruct (py_eq fl (VInt FLOW_SETUP_PROVIDER)); [apply Hafter | discriminate].
Qed.

Lemma advance_stored_idx h w :
  (∀ v, v ∈ pipeline h → keeps_idx v) →
  ∀ k, (k ≤ length (pipeline h))%nat →
    stored_idx (advance h k (snd (init_pipeline h w)))
    = Some (VInt (Z.of_nat k - 1)).
Proof.
  intros Hviews. induction k as [| k IH]; intros Hk.
  - apply stored_idx_Some. eexists. split; [reflexivity |].
    rewrite !lookup_insert_ne by done. by rewrite lookup_insert_eq.
  - cbn [advance]. specialize (IH ltac:(lia)).
    apply stored_idx_Some in IH as (s & Hs & Hi).
    rewrite (next_step_unfold h _ s _ Hs Hi).
    destruct (Z.eqb_spec (Z.of_nat k - 1 + 1) (Z.of_nat (length (pipeline h))));
      [lia |].
    destruct (lookup_lt_is_Some_2 (pipeline h) k ltac:(lia)) as [v Hv].
    replace (Z.of_nat k - 1 + 1) with (Z.of_nat k) by lia.
    rewrite (py_index_lookup _ _ _ Hv).
    rewrite (Hviews v (list_elem_of_lookup_2 _ _ _ Hv)).
    unfold stored_idx, bumped. cbn. rewrite lookup_insert_eq.
    do 2 f_equal. lia.
Qed.

(** C9 as stated fails.  A first login through the two-view pipeline:
    the third call reaches [finish_pipeline], whose resolver raises, so
    the record stays with index 2.  The fourth call is not a no-op: it
    stores index 3, beyond the step count, and then raises on the
    subscript.  The same happens in the one-view setup pipeline when the
    resolver raises for want of [REMOTE_ADDR]: the third call stores
    index 2. *)
Lemma advance_overshoots_after_failed_finish :
  (let start := snd (init_pipeline Fixture.h_login Fixture.w0) in
   length (pipeline Fixture.h_login) = 2%nat
   ∧ fst (next_step Fixture.h_login (advance Fixture.h_login 2 start))
     = Raise (UnboundLocalError "auth_identity")
   ∧ stored_idx (advance Fixture.h_login 3 start) = Some (VInt 2)
   ∧ fst (next_step Fixture.h_login (advance Fixture.h_login 3 start))
     = Raise IndexError
   ∧ stored_idx (advance Fixture.h_login 4 start) = Some (VInt 3))
  ∧ (let start := snd (init_pipeline Fixture.h_setup Fixture.w_setup_no_addr) in
     length (pipeline Fixture.h_setup) = 1%nat
     ∧ fst (next_step Fixture.h_setup (advance Fixture.h_setup 1 start))
       = Raise (KeyError "REMOTE_ADDR")
     ∧ stored_idx (advance Fixture.h_setup 2 start) = Some (VInt 1)
     ∧ fst (next_step Fixture.h_setup (advance Fixture.h_setup 2 start))
       = Raise IndexError
     ∧ stored_idx (advance Fixture.h_setup 3 start) = Some (VInt 2)).
Proof. repeat split; vm_compute; reflexivity. Qed.

(** C9, as the code has it.  From the record of [init_pipeline], with
    views that leave the stored index alone, the stored index after [k]
    calls is [k - 1] for every [k] up to the step count [N]; call [k + 1]
    dispatches view [k] for [k < N]; call [N + 1] is [finish_pipeline],
    with index [N] stored.  When that call returns a response the record
    is gone, and one more call raises [KeyError] and changes nothing. *)
Theorem advance_reaches_finish h w :
  (∀ v, v ∈ pipeline h → keeps_idx v) →
  let N := length (pipeline h) in
  let start := snd (init_pipeline h w) in
  (∀ k, (k ≤ N)%nat →
     stored_idx (advance h k start) = Some (VInt (Z.of_nat k - 1)))
  ∧ (∀ k v, pipeline h !! k = Some v →
       ∃ w1, stored_idx w1 = Some (VInt (Z.of_nat k))
             ∧ next_step h (advance h k start) = dispatch v w1)
  ∧ (∃ w1, stored_idx w1 = Some (VInt (Z.of_nat N))
           ∧ next_step h (advance h N start) = finish_pipeline h w1)
  ∧ (∀ r w', next_step h (advance h N start) = (Ok r, w') →
       session_auth w' = None
       ∧ next_step h w' = (Raise (KeyError "auth"), w')).
Proof.
  intros Hviews N start.
  pose proof (advance_stored_idx h w Hviews) as Hidx. fold start N in Hidx.
  assert (Hlast : ∃ w1, stored_idx w1 = Some (VInt (Z.of_nat N))
                        ∧ next_step h (advance h N start) = finish_pipeline h w1).
  { destruct (proj1 (stored_idx_Some _ _) (Hidx N ltac:(lia))) as (s & Hs & Hi).
    exists (bumped s (Z.of_nat N - 1) (advance h N start)). split.
    - rewrite stored_idx_bumped. do 2 f_equal. lia.
    - rewrite (next_step_unfold h _ s _ Hs Hi).
      destruct (Z.eqb_spec (Z.of_nat N - 1 + 1) (Z.of_nat (length (pipeline h))));
        [done | subst N; lia]. }
  split; [exact Hidx |]. split; [| split; [exact Hlast |]].
  - intros k v Hv. pose proof (lookup_lt_Some _ _ _ Hv) as Hlt.
    destruct (proj1 (stored_idx_Some _ _) (Hidx k ltac:(subst N; lia)))
      as (s & Hs & Hi).
    exists (bumped s (Z.of_nat k - 1) (advance h k start)). split.
    + rewrite stored_idx_bumped. do 2 f_equal. lia.
    + rewrite (next_step_unfold h _ s _ Hs Hi).
      destruct (Z.eqb_spec (Z.of_nat k - 1 + 1) (Z.of_nat (length (pipeline h))));
        [lia |].
      replace (Z.of_nat k - 1 + 1) with (Z.of_nat k) by lia.
      by rewrite (py_index_lookup _ _ _ Hv).
  - intros r w' Hok. destruct Hlast as (w1 & _ & Hn). rewrite Hn in Hok.
    destruct (finish_pipeline_ok_clears _ _ _ _ Hok) as [Hnone _].
    split; [exact Hnone | by apply next_step_without_record].
Qed.

(** A returning user walks the two-view pipeline: two views, then the
    finish, then nothing left to advance. *)
Lemma advance_reaches_finish_witness :
  let start := snd (init_pipeline Fixture.h_login (set_db Fixture.db_known Fixture.w0)) in
  stored_idx (advance Fixture.h_login 2 start) = Some (VInt 1)
  ∧ fst (next_step Fixture.h_login (advance Fixture.h_login 2 start))
    = Ok (HttpResponseRedirect LoginRedirect)
  ∧ session_auth (advance Fixture.h_login 3 start) = None
  ∧ next_step Fixture.h_login (advance Fixture.h_login 3 start)
    = (Raise (KeyError "auth"), advance Fixture.h_login 3 start).
Proof.
  intros start.
  assert (Hviews : ∀ v, v ∈ pipeline Fixture.h_login → keeps_idx v).
  { intros v Hv. cbn in Hv. rewrite !elem_of_cons, elem_of_nil in Hv.
    destruct Hv as [-> | [-> | []]]; intros w1; reflexivity. }
  destruct (advance_reaches_finish Fixture.h_login
              (set_db Fixture.db_known Fixture.w0) Hviews)
    as (H1 & _ & _ & H4).
  assert (Hrun : next_step Fixture.h_login (advance Fixture.h_login 2 start)
                 = (Ok (HttpResponseRedirect LoginRedirect),
                    advance Fixture.h_login 3 start))
    by (vm_compute; reflexivity).
  split; [exact (H1 2%nat ltac:(cbn; lia)) |].
  split; [by rewrite Hrun |].
  exact (H4 _ _ Hrun).
Defined.

(* ===================================================================== *)
(** * Further properties of the helper *)
(* ===================================================================== *)

(** ** [bind_state] and [fetch_state] *)

Lemma bind_state_on_dict k v w s d :
  session_auth w = Some s →
  s !! "state" = Some (VDict d) →
  bind_state k v w
  = (Ok tt,
     set_is_modified true
       (set_session_auth (Some (<["state" := VDict (<[k := v]> d)]> s)) w)).
Proof.
  intros Hs Hst. unfold bind_state, bind at 1.
  unfold session_getitem_auth, bind at 1, get_world. rewrite Hs. cbn [ret].
  unfold bind at 1, getitem. rewrite Hst. reflexivity.
Qed.

Lemma fetch_state_on_dict k w s d :
  session_auth w = Some s →
  s !! "state" = Some (VDict d) →
  fetch_state k w = (Ok (default SNone (d !! k)), w).
Proof.
  intros Hs Hst. unfold fetch_state, bind at 1.
  unfold session_getitem_auth, bind at 1, get_world. rewrite Hs. cbn [ret].
  unfold bind at 1, getitem. rewrite Hst. reflexivity.
Qed.

(** X1.  On a record whose state is a dictionary, [bind_state(k, v)]
    succeeds and sets the attribute [is_modified]; afterwards
    [fetch_state(k)]
    returns [v], every other key fetches what it fetched before, and the
    entries of the record other than ['state'] and the database are
    untouched. *)
Theorem bind_state_then_fetch_state k v w s d :
  session_auth w = Some s →
  s !! "state" = Some (VDict d) →
  ∃ w' s',
    bind_state k v w = (Ok tt, w')
    ∧ is_modified w' = true
    ∧ fetch_state k w' = (Ok v, w')
    ∧ (∀ k', k' ≠ k → fetch_state k' w' = (fst (fetch_state k' w), w'))
    ∧ session_auth w' = Some s'
    ∧ (∀ e, e ≠ "state" → s' !! e = s !! e)
    ∧ db w' = db w.
Proof.
  intros Hs Hst. eexists. eexists.
  split; [exact (bind_state_on_dict k v w s d Hs Hst) |].
  split; [reflexivity |].
  split.
  { erewrite fetch_state_on_dict; [| reflexivity | apply lookup_insert_eq].
    by rewrite lookup_insert_eq. }
  split.
  { intros k' Hne.
    erewrite fetch_state_on_dict; [| reflexivity | apply lookup_insert_eq].
    rewrite (fetch_state_on_dict k' w s d Hs Hst). cbn [fst].
    by rewrite lookup_insert_ne. }
  split; [reflexivity |].
  split; [| reflexivity].
  intros e Hne. by rewrite lookup_insert_ne.
Qed.

Lemma bind_state_then_fetch_state_witness :
  ∃ w', bind_state "token" (SStr "t0k") Fixture.w_login = (Ok tt, w')
        ∧ fetch_state "token" w' = (Ok (SStr "t0k"), w')
        ∧ fetch_state "other" w' = (Ok SNone, w').
Proof.
  destruct (bind_state_then_fetch_state "token" (SStr "t0k") Fixture.w_login
              (default ∅ (session_auth Fixture.w_login)) ∅ eq_refl eq_refl)
    as (w' & s' & H1 & _ & H3 & H4 & _).
  exists w'. split; [exact H1 |]. split; [exact H3 |].
  rewrite (H4 "other") by discriminate. reflexivity.
Defined.

(** X2.  Binding is last-write-wins on one key and order-independent on
    two different keys, on every request (when there is no record, or the
    state is not a dictionary, each call raises and changes nothing). *)
Theorem bind_state_overwrites_and_commutes k1 k2 v1 v2 w :
  snd (bind_state k1 v2 (snd (bind_state k1 v1 w))) = snd (bind_state k1 v2 w)
  ∧ (k1 ≠ k2 →
     snd (bind_state k2 v2 (snd (bind_state k1 v1 w)))
     = snd (bind_state k1 v1 (snd (bind_state k2 v2 w)))).
Proof.
  destruct (session_auth w) as [s |] eqn:Hs.
  2:{ assert (Hno : ∀ k v, bind_state k v w = (Raise (KeyError "auth"), w)).
      { intros k v. unfold bind_state, bind at 1.
        unfold session_getitem_auth, bind, get_world. by rewrite Hs. }
      rewrite !Hno. cbn [snd]. rewrite ?Hno. done. }
  destruct (s !! "state") as [st |] eqn:Hst.
  2:{ assert (Hno : ∀ k v, bind_state k v w = (Raise (KeyError "state"), w)).
      { intros k v. unfold bind_state, bind at 1.
        unfold session_getitem_auth, bind at 1, get_world. rewrite Hs. cbn [ret].
        unfold bind, getitem. by rewrite Hst. }
      rewrite !Hno. cbn [snd]. rewrite ?Hno. done. }
  destruct st as [| z | x | d].
  1-3: (assert (Hno : ∀ k v, bind_state k v w = (Raise TypeError, w));
        [ intros k v; unfold bind_state, bind at 1;
          unfold session_getitem_auth, bind at 1, get_world; rewrite Hs; cbn [ret];
          unfold bind, getitem; by rewrite Hst
        | rewrite !Hno; cbn [snd]; rewrite ?Hno; done ]).
  assert (Hstep : ∀ k v d', ∀ s', s' !! "state" = Some (VDict d') →
    ∀ w', session_auth w' = Some s' →
    snd (bind_state k v w')
    = set_is_modified true
        (set_session_auth (Some (<["state" := VDict (<[k := v]> d')]> s')) w')).
  { intros k v d' s' Hst' w' Hs'. by rewrite (bind_state_on_dict k v w' s' d'). }
  split.
  - rewrite (Hstep k1 v1 d s Hst w Hs).
    erewrite Hstep; [| apply lookup_insert_eq | reflexivity].
    rewrite (Hstep k1 v2 d s Hst w Hs).
    unfold set_is_modified, set_session_auth. cbn.
    by rewrite !insert_insert_eq.
  - intros Hne.
    rewrite (Hstep k1 v1 d s Hst w Hs), (Hstep k2 v2 d s Hst w Hs).
    erewrite Hstep; [| apply lookup_insert_eq | reflexivity].
    erewrite Hstep; [| apply lookup_insert_eq | reflexivity].
    unfold set_is_modified, set_session_auth. cbn.
    rewrite !insert_insert_eq. do 4 f_equal.
    by apply insert_insert_ne.
Qed.

(** X3.  With no pipeline record in the session, every method that reads
    [request.session['auth']] raises [KeyError('auth')] and leaves the
    request as it was; [error] does not even queue its message. *)
Theorem methods_without_record_raise h k v message w :
  session_auth w = None →
  next_step h w = (Raise (KeyError "auth"), w)
  ∧ finish_pipeline h w = (Raise (KeyError "auth"), w)
  ∧ get_current_view h w = (Raise (KeyError "auth"), w)
  ∧ error h message w = (Raise (KeyError "auth"), w)
  ∧ bind_state k v w = (Raise (KeyError "auth"), w)
  ∧ fetch_state k w = (Raise (KeyError "auth"), w).
Proof.
  intros Hs.
  assert (Hg : session_getitem_auth w = (Raise (KeyError "auth"), w)).
  { unfold session_getitem_auth, bind, get_world. by rewrite Hs. }
  repeat split.
  - unfold next_step, bind at 1. by rewrite Hg.
  - unfold finish_pipeline, bind at 1. by rewrite Hg.
  - unfold get_current_view, bind at 1. by rewrite Hg.
  - unfold error, bind at 1. by rewrite Hg.
  - unfold bind_state, bind at 1. by rewrite Hg.
  - unfold fetch_state, bind at 1. by rewrite Hg.
Qed.

Lemma methods_without_record_raise_witness :
  next_step Fixture.h_login Fixture.w0 = (Raise (KeyError "auth"), Fixture.w0)
  ∧ error Fixture.h_login "denied" Fixture.w0
    = (Raise (KeyError "auth"), Fixture.w0).
Proof.
  destruct (methods_without_record_raise Fixture.h_login "k" SNone "denied"
              Fixture.w0 eq_refl) as (H1 & _ & _ & H4 & _).
  exact (conj H1 H4).
Defined.

(** ** What only reads the request *)

Lemma read_only_ret {A} (a : A) : read_only (ret a).
Proof. intros w. reflexivity. Qed.

Lemma read_only_raise {A} (e : exn) : read_only (@raise A e).
Proof. intros w. reflexivity. Qed.

Lemma read_only_lift {A} (x : result A) : read_only (lift x).
Proof. intros w. reflexivity. Qed.

Lemma read_only_get_world : read_only get_world.
Proof. intros w. reflexivity. Qed.

Lemma read_only_bind {A B} (m : M A) (k : A → M B) :
  read_only m → (∀ a, read_only (k a)) → read_only (bind m k).
Proof.
  intros Hm Hk w. unfold bind. specialize (Hm w).
  destruct (m w) as [[a|e] w1]; cbn in Hm; subst w1; [apply Hk | reflexivity].
Qed.

Lemma read_only_getitem d k : read_only (getitem d k).
Proof. unfold getitem. destruct (d !! k); [apply read_only_ret | apply read_only_raise]. Qed.

Create HintDb readonly.

#[local] Hint Resolve read_only_ret read_only_raise read_only_lift
  read_only_get_world read_only_getitem : readonly.

Ltac read_only_step :=
  match goal with
  | |- read_only (bind _ _) => apply read_only_bind; [| intros ?]
  | |- read_only (if ?b then _ else _) => destruct b
  | |- read_only (match ?x with _ => _ end) => destruct x
  | |- read_only _ => solve [auto with readonly]
  end.

Ltac read_only_auto := repeat read_only_step.

(** X4.  [get_for_request], [pipeline_is_valid], [get_current_view] and
    [fetch_state] never change the request, whether they return or
    raise. *)
Theorem readers_leave_request_unchanged manager h k :
  read_only (get_for_request manager)
  ∧ read_only (pipeline_is_valid h)
  ∧ read_only (get_current_view h)
  ∧ read_only (fetch_state k).
Proof.
  repeat split.
  - unfold get_for_request, AuthProvider_objects_get, Organization_objects_get.
    read_only_auto.
  - unfold pipeline_is_valid. read_only_auto.
  - unfold get_current_view, session_getitem_auth. read_only_auto.
  - unfold fetch_state, session_getitem_auth. read_only_auto.
Qed.

(** X5.  [pipeline_is_valid] never raises.  It answers false when the
    session has no record and when the record has no ['sig'] entry. *)
Theorem pipeline_is_valid_never_raises h w :
  ∃ b, pipeline_is_valid h w = (Ok b, w)
       ∧ (session_auth w = None → b = false)
       ∧ (∀ s, session_auth w = Some s → s !! "sig" = None → b = false).
Proof.
  unfold pipeline_is_valid, bind, get_world.
  destruct (session_auth w) as [s |]; cbn [default from_option id].
  - destruct (bool_decide (s = ∅)); eexists; (split; [reflexivity |]);
      (split; [done |]); intros s' [= <-] Hsig; [done |].
    unfold py_eq, dict_get. rewrite Hsig. cbn. by rewrite bool_decide_eq_false_2.
  - rewrite bool_decide_eq_true_2 by done. eexists. by repeat split.
Qed.

(** ** [init_pipeline] *)

(** X6.  Right after [init_pipeline], the helper that wrote the record
    finds it valid. *)
Theorem init_pipeline_then_valid h w :
  pipeline_is_valid h (snd (init_pipeline h w))
  = (Ok true, snd (init_pipeline h w)).
Proof.
  unfold pipeline_is_valid, bind at 1, get_world.
  cbn [init_pipeline snd bind modify session_auth set_session_auth
       set_modified set_is_modified default from_option id].
  rewrite bool_decide_eq_false_2.
  2:{ intros H. apply (f_equal (.!! "ap")) in H.
      by rewrite lookup_insert_eq, lookup_empty in H. }
  unfold ret, py_eq, dict_get.
  rewrite !lookup_insert_ne by done. rewrite lookup_insert_eq.
  cbn. by rewrite bool_decide_eq_true_2.
Qed.

(** X7.  [init_pipeline] is a full restart: whatever record the session
    held, the new one has index -1 and an empty state (every
    [fetch_state] returns [None]), the attribute [is_modified] is set,
    and the database is untouched. *)
Theorem init_pipeline_restarts h w k :
  let w' := snd (init_pipeline h w) in
  fst (init_pipeline h w) = Ok tt
  ∧ stored_idx w' = Some (VInt (-1))
  ∧ fetch_state k w' = (Ok SNone, w')
  ∧ is_modified w' = true
  ∧ db w' = db w
  ∧ (∀ a, session_auth (snd (init_pipeline h (set_session_auth a w)))
          = session_auth w').
Proof.
  intros w'. split; [reflexivity |].
  split.
  { apply stored_idx_Some. eexists. split; [reflexivity |].
    rewrite !lookup_insert_ne by done. by rewrite lookup_insert_eq. }
  split.
  { erewrite fetch_state_on_dict; [| reflexivity |].
    - by rewrite lookup_empty.
    - rewrite !lookup_insert_ne by done. by rewrite lookup_insert_eq. }
  by repeat split.
Qed.

(** ** [get_current_view] *)

Lemma py_index_elem_of {A} (l : list A) v x : py_index l v = Ok x → x ∈ l.
Proof.
  unfold py_index. destruct v as [| i | |]; try discriminate.
  destruct (_ && _); [| discriminate].
  destruct (l !! _) eqn:E; [| discriminate].
  intros [= <-]. by eapply list_elem_of_lookup_2.
Qed.

Lemma get_current_view_on_record h w s v :
  session_auth w = Some s →
  s !! "idx" = Some v →
  get_current_view h w = (py_index (pipeline h) v, w).
Proof.
  intros Hs Hi. unfold get_current_view, bind at 1.
  unfold session_getitem_auth, bind at 1, get_world. rewrite Hs. cbn [ret].
  unfold bind, getitem. rewrite Hi. reflexivity.
Qed.

(** X8.  Right after [init_pipeline] the stored index is -1, and
    [pipeline[-1]] is the last view: [get_current_view] returns the last
    view of the pipeline, and raises [IndexError] only when the pipeline
    is empty. *)
Theorem get_current_view_after_init h w :
  get_current_view h (snd (init_pipeline h w))
  = (match last (pipeline h) with
     | Some v => Ok v
     | None => Raise IndexError
     end, snd (init_pipeline h w)).
Proof.
  erewrite get_current_view_on_record; [| reflexivity |].
  2:{ rewrite !lookup_insert_ne by done. apply lookup_insert_eq. }
  f_equal. unfold py_index. rewrite last_lookup.
  destruct (pipeline h) as [| v l]; [reflexivity |].
  cbn [length Nat.pred]. 
  destruct (Z.ltb_spec (-1) 0); [| lia].
  destruct (Z.leb_spec 0 (-1 + Z.of_nat (S (length l)))); [| lia].
  destruct (Z.ltb_spec (-1 + Z.of_nat (S (length l))) (Z.of_nat (S (length l))));
    [| lia].
  cbn [andb].
  replace (Z.to_nat (-1 + Z.of_nat (S (length l)))) with (length l) by lia.
  destruct ((v :: l) !! length l) eqn:E; [reflexivity |].
  apply lookup_ge_None in E. cbn in E. lia.
Qed.

(** X9.  A view returned by [get_current_view] is a view of the helper's
    pipeline, and the call leaves the request as it was. *)
Theorem get_current_view_in_pipeline h w v w' :
  get_current_view h w = (Ok v, w') → v ∈ pipeline h ∧ w' = w.
Proof.
  intros H.
  destruct (session_auth w) as [s |] eqn:Hs.
  2:{ unfold get_current_view, bind at 1 in H.
      unfold session_getitem_auth, bind, get_world in H. by rewrite Hs in H. }
  destruct (s !! "idx") as [i |] eqn:Hi.
  2:{ unfold get_current_view, bind at 1 in H.
      unfold session_getitem_auth, bind at 1, get_world in H. rewrite Hs in H.
      cbn [ret] in H. unfold bind, getitem in H. by rewrite Hi in H. }
  rewrite (get_current_view_on_record h w s i Hs Hi) in H.
  injection H as H <-. split; [by eapply py_index_elem_of | done].
Qed.

Lemma get_current_view_in_pipeline_witness :
  Fixture.page "confirm" ∈ pipeline Fixture.h_login.
Proof.
  apply (get_current_view_in_pipeline Fixture.h_login Fixture.w_login
           (Fixture.page "confirm") Fixture.w_login).
  vm_compute. reflexivity.
Defined.

(** ** [next_step] *)

(** X10.  When the incremented index is not the step count, [next_step]
    dispatches the view that [get_current_view] returns on the
    incremented record, and raises what [get_current_view] raises when
    there is no such view. *)
Theorem next_step_dispatches_current_view h w s i :
  session_auth w = Some s →
  s !! "idx" = Some (VInt i) →
  i + 1 ≠ Z.of_nat (length (pipeline h)) →
  next_step h w = (view <~ get_current_view h ;; dispatch view) (bumped s i w).
Proof.
  intros Hs Hi Hne. rewrite (next_step_unfold h w s i Hs Hi).
  apply Z.eqb_neq in Hne. rewrite Hne.
  unfold bind at 1.
  erewrite get_current_view_on_record; [| reflexivity | apply lookup_insert_eq].
  destruct (py_index (pipeline h) (VInt (i + 1))); reflexivity.
Qed.

Lemma next_step_dispatches_current_view_witness :
  next_step Fixture.h_login Fixture.w_login
  = (view <~ get_current_view Fixture.h_login ;; dispatch view)
      (bumped (default ∅ (session_auth Fixture.w_login)) (-1) Fixture.w_login).
Proof.
  apply (next_step_dispatches_current_view Fixture.h_login Fixture.w_login
           (default ∅ (session_auth Fixture.w_login)) (-1));
    [reflexivity | reflexivity | cbn; lia].
Defined.

(** X11.  On a record without ['idx'] [next_step] raises
    [KeyError('idx')], and on a stored index that is not an integer it
    raises [TypeError]; in both cases nothing is stored and nothing is
    set. *)
Theorem next_step_on_bad_index h w s :
  session_auth w = Some s →
  (s !! "idx" = None → next_step h w = (Raise (KeyError "idx"), w))
  ∧ (∀ v, s !! "idx" = Some v → (∀ i, v ≠ VInt i) →
       next_step h w = (Raise TypeError, w)).
Proof.
  intros Hs. split.
  - intros Hi. unfold next_step, bind at 1.
    unfold session_getitem_auth, bind at 1, get_world. rewrite Hs. cbn [ret].
    unfold bind, getitem. by rewrite Hi.
  - intros v Hi Hv. unfold next_step, bind at 1.
    unfold session_getitem_auth, bind at 1, get_world. rewrite Hs. cbn [ret].
    unfold bind at 1, getitem. rewrite Hi. cbn [ret].
    unfold bind, lift. destruct v; try reflexivity. by destruct (Hv z).
Qed.

Lemma next_step_on_bad_index_witness :
  let w := set_session_auth (Some (<["idx" := VStr "0"]> ∅)) Fixture.w0 in
  next_step Fixture.h_login w = (Raise TypeError, w).
Proof.
  intros w.
  apply (proj2 (next_step_on_bad_index Fixture.h_login w
                  (<["idx" := VStr "0"]> ∅) eq_refl) (VStr "0"));
    [reflexivity | discriminate].
Defined.

(** X12.  On a record that holds an integer index, [next_step] goes on,
    to [finish_pipeline] or to the dispatch of the current view, on a
    request in which nothing but ['idx'] and the helper's attribute has
    changed: the record holds the new index and every other entry as
    before, the validity of the pipeline and every [fetch_state] answer
    what they answered before the call, and the database and the flag of
    the session are the same. *)
Theorem next_step_increment_keeps_the_rest h w s i k :
  session_auth w = Some s →
  s !! "idx" = Some (VInt i) →
  ∃ w1 s1,
    next_step h w
    = (if i + 1 =? Z.of_nat (length (pipeline h)) then finish_pipeline h w1
       else (view <~ get_current_view h ;; dispatch view) w1)
    ∧ session_auth w1 = Some s1
    ∧ s1 !! "idx" = Some (VInt (i + 1))
    ∧ (∀ e, e ≠ "idx" → s1 !! e = s !! e)
    ∧ fst (pipeline_is_valid h w1) = fst (pipeline_is_valid h w)
    ∧ fst (fetch_state k w1) = fst (fetch_state k w)
    ∧ db w1 = db w
    ∧ modified w1 = modified w.
Proof.
  intros Hs Hi. exists (bumped s i w), (<["idx" := VInt (i + 1)]> s).
  split.
  { rewrite (next_step_unfold h w s i Hs Hi).
    destruct (i + 1 =? Z.of_nat (length (pipeline h))); [reflexivity |].
    unfold bind at 1.
    erewrite get_current_view_on_record; [| reflexivity | apply lookup_insert_eq].
    destruct (py_index (pipeline h) (VInt (i + 1))); reflexivity. }
  split; [reflexivity |].
  split; [apply lookup_insert_eq |].
  split; [intros e Hne; by rewrite lookup_insert_ne |].
  split.
  { unfold pipeline_is_valid, bind, get_world. rewrite Hs.
    cbn [bumped session_auth set_is_modified set_session_auth default
         from_option id].
    rewrite (bool_decide_eq_false_2 (<["idx":=VInt (i + 1)]> s = ∅)).
    2:{ intros H. apply (f_equal (.!! "idx")) in H.
        by rewrite lookup_insert_eq, lookup_empty in H. }
    rewrite (bool_decide_eq_false_2 (s = ∅)).
    2:{ intros ->. by rewrite lookup_empty in Hi. }
    unfold dict_get. by rewrite lookup_insert_ne. }
  split; [| by split].
  unfold fetch_state, bind at 1 3.
  unfold session_getitem_auth, bind at 1 3, get_world. rewrite Hs.
  cbn [bumped session_auth set_is_modified set_session_auth ret].
  unfold bind, getitem. rewrite lookup_insert_ne by done.
  destruct (s !! "state") as [[| | | d] |]; reflexivity.
Qed.

Lemma next_step_increment_keeps_the_rest_witness :
  ∃ w1, next_step Fixture.h_login Fixture.w_login
        = (view <~ get_current_view Fixture.h_login ;; dispatch view) w1
        ∧ stored_idx w1 = Some (VInt 0)
        ∧ fst (pipeline_is_valid Fixture.h_login w1) = Ok true
        ∧ modified w1 = false.
Proof.
  destruct (next_step_increment_keeps_the_rest Fixture.h_login Fixture.w_login
              (default ∅ (session_auth Fixture.w_login)) (-1) "k" eq_refl eq_refl)
    as (w1 & s1 & H1 & H2 & H3 & _ & H5 & _ & _ & H8).
  exists w1. split; [exact H1 |]. split; [| split].
  - apply stored_idx_Some. eauto.
  - rewrite H5. vm_compute. reflexivity.
  - rewrite H8. reflexivity.
Defined.

(** ** The constructor *)

Lemma py_eq_true a b : py_eq a b = true ↔ a = b.
Proof. unfold py_eq. apply bool_decide_eq_true. Qed.

Lemma AuthHelper_init_inv manager org fl ap pk h :
  AuthHelper_init manager org fl ap pk = Ok h →
  auth_provider h = ap
  ∧ organization h = org
  ∧ flow h = fl
  ∧ signature h = compute_signature (pipeline h)
  ∧ ((fl = VInt FLOW_LOGIN ∧ pipeline h = get_auth_pipeline (provider h))
     ∨ (fl = VInt FLOW_SETUP_PROVIDER
        ∧ pipeline h = get_setup_pipeline (provider h)))
  ∧ match ap with
    | Some a => manager !! ap_provider a = Some (provider h)
    | None => ∃ k, pk = VStr k ∧ k ≠ "" ∧ manager !! k = Some (provider h)
    end.
Proof.
  unfold AuthHelper_init.
  destruct (negb _) eqn:Hassert; [discriminate |].
  assert (Hres : ∀ p,
    match ap with
    | Some a => manager_get manager (VStr (ap_provider a))
    | None => if truthy pk then manager_get manager pk
              else Raise NotImplementedError
    end = Ok p →
    match ap with
    | Some a => manager !! ap_provider a = Some p
    | None => ∃ k, pk = VStr k ∧ k ≠ "" ∧ manager !! k = Some p
    end).
  { intros p. destruct ap as [a |].
    - cbn. destruct (manager !! ap_provider a); [by intros [= ->] | discriminate].
    - destruct (truthy pk) eqn:Hpk; [| discriminate].
      destruct pk as [| | k |]; try discriminate.
      cbn. destruct (manager !! k) eqn:Hk; [| discriminate].
      intros [= ->]. exists k. split; [done |]. split; [| done].
      intros ->. discriminate. }
  destruct (match ap with Some _ => _ | None => _ end) as [p |] eqn:Hp;
    [| discriminate].
  specialize (Hres p eq_refl).
  destruct (py_eq fl (VInt FLOW_LOGIN)) eqn:H1.
  - intros [= <-]. cbn. apply py_eq_true in H1. repeat split; auto.
  - destruct (py_eq fl (VInt FLOW_SETUP_PROVIDER)) eqn:H2; [| discriminate].
    intros [= <-]. cbn. apply py_eq_true in H2. repeat split; auto.
Qed.

(** X13.  A helper that the constructor returns has the arguments it was
    given, a flow that is one of the two constants with the pipeline of
    that flow, the signature of that pipeline, and the provider that
    the registry holds for the auth provider's key (for the provider key,
    when there is no auth provider). *)
Theorem AuthHelper_init_builds manager org fl ap pk h :
  AuthHelper_init manager org fl ap pk = Ok h →
  auth_provider h = ap
  ∧ organization h = org
  ∧ flow h = fl
  ∧ signature h = compute_signature (pipeline h)
  ∧ ((fl = VInt FLOW_LOGIN ∧ pipeline h = get_auth_pipeline (provider h))
     ∨ (fl = VInt FLOW_SETUP_PROVIDER
        ∧ pipeline h = get_setup_pipeline (provider h)))
  ∧ match ap with
    | Some a => manager !! ap_provider a = Some (provider h)
    | None => ∃ k, pk = VStr k ∧ k ≠ "" ∧ manager !! k = Some (provider h)
    end.
Proof. apply AuthHelper_init_inv. Qed.

Lemma AuthHelper_init_builds_witness :
  pipeline Fixture.h_setup = get_setup_pipeline (provider Fixture.h_setup)
  ∧ signature Fixture.h_setup = compute_signature (pipeline Fixture.h_setup).
Proof.
  destruct (AuthHelper_init_builds Fixture.manager Fixture.acme
              (VInt FLOW_SETUP_PROVIDER) None (VStr "dummy") Fixture.h_setup)
    as (_ & _ & _ & Hsig & [[Hf _] | [_ Hp]] & _).
  - vm_compute. reflexivity.
  - discriminate Hf.
  - exact (conj Hp Hsig).
Defined.



(** ** [get_for_request], continued *)

Lemma AuthHelper_init_with_auth_provider manager org fl a pk pk' :
  AuthHelper_init manager org fl (Some a) pk
  = AuthHelper_init manager org fl (Some a) pk'.
Proof.
  unfold AuthHelper_init.
  rewrite !(bool_decide_eq_true_2 (is_Some (Some a))) by eauto.
  by rewrite !orb_true_r.
Qed.

(** X15.  Round trip through the session.  For a helper made by the
    constructor, whose organization has a non-zero id and is in the
    database, and whose auth provider (when it has one) has a non-zero id
    and is in the database (when it has none: whose provider is
    registered under its own non-empty key), [get_for_request] on the
    request left by [init_pipeline] returns that same helper. *)
Theorem get_for_request_after_init_pipeline manager h w pk :
  AuthHelper_init manager (organization h) (flow h) (auth_provider h) pk = Ok h →
  org_id (organization h) ≠ 0 →
  get_by_id "Organization" org_id (organizations (db w))
    (VInt (org_id (organization h))) = Ok (organization h) →
  match auth_provider h with
  | Some a =>
      ap_id a ≠ 0
      ∧ get_by_id "AuthProvider" ap_id (auth_providers (db w)) (VInt (ap_id a))
        = Ok a
  | None =>
      key (provider h) ≠ "" ∧ manager !! key (provider h) = Some (provider h)
  end →
  get_for_request manager (snd (init_pipeline h w))
  = (Ok (Some h), snd (init_pipeline h w)).
Proof.
  intros Hinit Hoid Horg Hprov.
  set (w' := snd (init_pipeline h w)).
  assert (Hsess : ∃ s, session_auth w' = Some s
    ∧ s !! "org" = Some (VInt (org_id (organization h)))
    ∧ s !! "flow" = Some (flow h)
    ∧ s !! "p" = Some (VStr (key (provider h)))
    ∧ s !! "ap" = Some (match auth_provider h with
                        | Some ap => VInt (ap_id ap) | None => VNone end)).
  { eexists. split; [reflexivity |].
    repeat split; rewrite ?lookup_insert_eq; try done;
      (rewrite !lookup_insert_ne by done); by rewrite lookup_insert_eq. }
  destruct Hsess as (s & Hs & Ho & Hf & Hp & Ha).
  assert (Hdb : db w' = db w) by reflexivity.
  rewrite (get_for_request_unfold manager w' (flow h)).
  2:{ rewrite Hs. unfold dict_get. cbn [default from_option id]. rewrite Ho. cbn.
      by destruct (Z.eqb_spec (org_id (organization h)) 0). }
  2:{ by rewrite Hs. }
  rewrite Hs. cbn [default from_option id]. unfold dict_get. rewrite Ha, Hp.
  cbn [default from_option id].
  assert (Htail : ∀ ap,
    AuthHelper_init manager (organization h) (flow h) ap
      (VStr (key (provider h))) = Ok h →
    (org_v <~ getitem s "org" ;;
     organization <~ Organization_objects_get org_v ;;
     h' <~ lift (AuthHelper_init manager organization (flow h) ap
                   (VStr (key (provider h)))) ;;
     ret (Some h')) w' = (Ok (Some h), w')).
  { intros ap Hap. unfold bind at 1, getitem. rewrite Ho. cbn [ret].
    unfold bind at 1, Organization_objects_get, bind at 1, get_world, lift.
    rewrite Hdb, Horg. unfold bind. by rewrite Hap. }
  destruct (auth_provider h) as [a |] eqn:Hah.
  - destruct Hprov as [Hnz Hget]. cbn [truthy].
    destruct (Z.eqb_spec (ap_id a) 0); [done |]. cbn [negb].
    unfold bind at 1. unfold bind at 1, AuthProvider_objects_get, bind at 1,
      get_world, lift. rewrite Hdb, Hget. cbn [ret].
    apply (Htail (Some a)).
    by rewrite (AuthHelper_init_with_auth_provider _ _ _ _ _ pk).
  - destruct Hprov as [Hk Hreg]. cbn [truthy].
    destruct (String.eqb_spec (key (provider h)) ""); [done |]. cbn [negb].
    unfold bind at 1. cbn [ret]. apply (Htail None).
    destruct (AuthHelper_init_inv _ _ _ _ _ _ Hinit)
      as (_ & _ & _ & Hsig & Hpipe & _).
    unfold AuthHelper_init. cbn [truthy].
    destruct (String.eqb_spec (key (provider h)) ""); [done |]. cbn.
    rewrite Hreg.
    destruct h as [hap horg hfl hprov hpipe hsig]. cbn in *. subst hap.
    destruct Hpipe as [[-> ->] | [-> ->]]; cbn; by rewrite Hsig.
Qed.

Lemma get_for_request_after_init_pipeline_witness :
  get_for_request Fixture.manager (snd (init_pipeline Fixture.h_setup Fixture.w0))
  = (Ok (Some Fixture.h_setup), snd (init_pipeline Fixture.h_setup Fixture.w0)).
Proof.
  apply (get_for_request_after_init_pipeline Fixture.manager Fixture.h_setup
           Fixture.w0 (VStr "dummy"));
    [vm_compute; reflexivity | discriminate | reflexivity
    | split; [discriminate | reflexivity]].
Defined.

(** X16.  A helper that [get_for_request] returns carries the flow stored
    in the record, which is one of the two constants, the organization
    that the stored ['org'] resolves to, and the signature of its own
    pipeline; the request is as it was. *)
Theorem get_for_request_helper_matches_record manager w h w' :
  get_for_request manager w = (Ok (Some h), w') →
  w' = w
  ∧ ∃ s v, session_auth w = Some s
           ∧ s !! "flow" = Some (flow h)
           ∧ (flow h = VInt FLOW_LOGIN ∨ flow h = VInt FLOW_SETUP_PROVIDER)
           ∧ s !! "org" = Some v
           ∧ get_by_id "Organization" org_id (organizations (db w)) v
             = Ok (organization h)
           ∧ signature h = compute_signature (pipeline h).
Proof.
  intros H.
  destruct (session_auth w) as [s |] eqn:Hs.
  2:{ unfold get_for_request, bind, get_world in H. rewrite Hs in H.
      discriminate H. }
  destruct (truthy (dict_get s "org")) eqn:Horg.
  2:{ unfold get_for_request, bind, get_world in H. rewrite Hs in H.
      cbn [default from_option id] in H. rewrite Horg in H. discriminate H. }
  destruct (s !! "flow") as [fl |] eqn:Hfl.
  2:{ unfold get_for_request, bind at 1, get_world in H. rewrite Hs in H.
      cbn [default from_option id] in H. rewrite Horg in H. cbn [negb] in H.
      unfold bind, getitem in H. rewrite Hfl in H. discriminate H. }
  rewrite (get_for_request_unfold manager w fl) in H;
    [| by rewrite Hs | by rewrite Hs].
  rewrite Hs in H. cbn [default from_option id] in H.
  unfold bind at 1 in H.
  assert (Hfirst : ∃ r,
    (if truthy (dict_get s "ap") then
       ap <~ AuthProvider_objects_get (dict_get s "ap") ;; ret (Some (Some ap))
     else if truthy (dict_get s "p") then ret (Some None) else ret None) w
    = (r, w)).
  { destruct (truthy (dict_get s "ap")).
    - unfold bind, AuthProvider_objects_get, bind, get_world, lift.
      destruct (get_by_id _ _ _ _); eauto.
    - destruct (truthy (dict_get s "p")); eauto. }
  destruct Hfirst as [r Hr]. rewrite Hr in H.
  destruct r as [ap |]; [| discriminate H].
  unfold bind at 1, getitem in H.
  destruct (s !! "org") as [v |] eqn:Hv; [| discriminate H]. cbn [ret] in H.
  unfold bind at 1, Organization_objects_get, bind at 1, get_world, lift in H.
  destruct (get_by_id "Organization" org_id (organizations (db w)) v)
    as [org |] eqn:Hget; [| discriminate H].
  destruct ap as [ap |]; [| discriminate H].
  unfold bind, lift in H.
  destruct (AuthHelper_init manager org fl ap (dict_get s "p")) as [h' |] eqn:Hi;
    [| discriminate H].
  injection H as -> <-.
  destruct (AuthHelper_init_inv _ _ _ _ _ _ Hi) as (_ & Ho & Hf & Hsig & Hp & _).
  split; [done |]. exists s, v. rewrite Hf, Ho.
  repeat split; try done.
  destruct Hp as [[-> _] | [-> _]]; auto.
Qed.

Lemma get_for_request_helper_matches_record_witness :
  flow Fixture.h_login = VInt FLOW_LOGIN
  ∨ flow Fixture.h_login = VInt FLOW_SETUP_PROVIDER.
Proof.
  destruct (get_for_request_helper_matches_record Fixture.manager Fixture.w_login
              Fixture.h_login Fixture.w_login)
    as (_ & s & v & _ & _ & H & _); [vm_compute; reflexivity | exact H].
Defined.

(** X17.  On a record with a truthy ['org'], [get_for_request] raises
    [KeyError('flow')] when the record has no flow, and raises on the
    unbound local [auth_provider] when the organization resolves and
    neither ['ap'] nor ['p'] is truthy; the request is left as it was. *)
Theorem get_for_request_on_incomplete_record manager w s :
  session_auth w = Some s →
  truthy (dict_get s "org") = true →
  (s !! "flow" = None →
   get_for_request manager w = (Raise (KeyError "flow"), w))
  ∧ (∀ fl v org, s !! "flow" = Some fl →
       truthy (dict_get s "ap") = false →
       truthy (dict_get s "p") = false →
       s !! "org" = Some v →
       get_by_id "Organization" org_id (organizations (db w)) v = Ok org →
       get_for_request manager w
       = (Raise (UnboundLocalError "auth_provider"), w)).
Proof.
  intros Hs Horg. split.
  - intros Hfl. unfold get_for_request, bind at 1, get_world. rewrite Hs.
    cbn [default from_option id]. rewrite Horg. cbn [negb].
    unfold bind, getitem. by rewrite Hfl.
  - intros fl v org Hfl Hap Hp Hv Hget.
    rewrite (get_for_request_unfold manager w fl);
      [| by rewrite Hs | by rewrite Hs].
    rewrite Hs. cbn [default from_option id]. rewrite Hap, Hp.
    unfold bind at 1. cbn [ret].
    unfold bind at 1, getitem. rewrite Hv. cbn [ret].
    unfold bind, Organization_objects_get, bind, get_world, lift.
    by rewrite Hget.
Qed.

Lemma get_for_request_on_incomplete_record_witness :
  let w := set_session_auth (Some (<["org" := VInt 1]> ∅)) Fixture.w0 in
  get_for_request Fixture.manager w = (Raise (KeyError "flow"), w).
Proof.
  intros w.
  apply (proj1 (get_for_request_on_incomplete_record Fixture.manager w
                  (<["org" := VInt 1]> ∅) eq_refl eq_refl)).
  reflexivity.
Defined.

(** ** The login resolver *)

Lemma bind_ok_inv {A B} (m : M A) (k : A → M B) w b w' :
  bind m k w = (Ok b, w') → ∃ a w1, m w = (Ok a, w1) ∧ k a w1 = (Ok b, w').
Proof.
  unfold bind. destruct (m w) as [[a|e] w1]; [eauto | discriminate].
Qed.

Lemma atomic_raise_db {A} (m : M A) w e w' :
  atomic m w = (Raise e, w') → db w' = db w.
Proof.
  unfold atomic. destruct (m w) as [[a|e'] w1]; [discriminate |].
  by intros [= _ <-].
Qed.

(** X18.  The login resolver never completes a first login.  When no
    identity is bound to the provider for the subject (or the helper has
    no auth provider), the [except] branch leaves [auth_identity]
    unbound, so the resolver raises, whatever the branch managed to
    write; the transaction takes the writes back, and the pipeline record
    is as it was. *)
Theorem first_login_always_raises h identity w ident :
  identity !! "id" = Some ident →
  (∀ ap, auth_provider h = Some ap →
     filter (λ r, ai_auth_provider r = ap_id ap ∧ ai_ident r = ident)
            (auth_identities (db w)) = []) →
  ∃ e w', _finish_login_pipeline h identity w = (Raise e, w')
          ∧ db w' = db w
          ∧ users (db w') = users (db w)
          ∧ session_auth w' = session_auth w.
Proof.
  intros Hid Hnone.
  assert (Hbody : ∃ e w1, finish_login_body h identity w = (Raise e, w1)
                          ∧ same_session w w1).
  { destruct (finish_login_body h identity w) as [r w1] eqn:E.
    revert E. unfold finish_login_body, identity_getitem.
    rewrite (bind_Ok _ _ w ident w) by (unfold getitem; by rewrite Hid).
    intros E.
    apply bind_inv in E as [(ai & w2 & Htry & Hrest) | (e & Htry & ->)].
    - assert (K : same_session w w2).
      { revert Htry.
        apply keeps_try_except_else; [auto with keeps | | intros a];
          keeps_auto. }
      assert (ai = None) as ->.
      { revert Htry. unfold try_except_else.
        assert (AuthIdentity_objects_get (auth_provider h) ident w
                = (Raise (DoesNotExist "AuthIdentity"), w)) as ->.
        { unfold AuthIdentity_objects_get, bind, get_world.
          destruct (auth_provider h) as [ap |]; [| reflexivity].
          by rewrite (Hnone ap eq_refl). }
        cbn [is_DoesNotExist]. rewrite String.eqb_refl. intros Htry.
        repeat (apply bind_ok_inv in Htry as (? & ? & _ & Htry)).
        by injection Htry as <- _. }
      injection Hrest as <- <-. eauto.
    - exists e, w1. split; [done |]. revert Htry.
      apply keeps_try_except_else; [auto with keeps | | intros a];
        keeps_auto. }
  destruct Hbody as (e & w1 & Hbody & K).
  exists e, (set_db (db w) w1).
  assert (Hres : _finish_login_pipeline h identity w = (Raise e, set_db (db w) w1)).
  { unfold _finish_login_pipeline, atomic. by rewrite Hbody. }
  split; [exact Hres |]. split; [reflexivity |]. split; [reflexivity |].
  by destruct K.
Qed.

Lemma first_login_always_raises_witness :
  ∃ e w', _finish_login_pipeline Fixture.h_login Fixture.the_identity
            Fixture.w_login = (Raise e, w')
          ∧ db w' = db Fixture.w_login.
Proof.
  destruct (first_login_always_raises Fixture.h_login Fixture.the_identity
              Fixture.w_login (VStr "u1") eq_refl)
    as (e & w' & H1 & H2 & _).
  - intros ap [= <-]. reflexivity.
  - exact (ex_intro _ e (ex_intro _ w' (conj H1 H2))).
Defined.

(** The end of the login resolver, once the identity is settled: the
    user of the identity is read and logged in. *)
Lemma login_tail z u w :
  get_by_id "User" user_id (users (db w)) (VInt z) = Ok u →
  (user <~ User_objects_get z ;;
   login user ;;; ret (HttpResponseRedirect LoginRedirect)) w
  = match login u w with
    | (Ok _, w') => (Ok (HttpResponseRedirect LoginRedirect), w')
    | (Raise e, w') => (Raise e, w')
    end.
Proof.
  intros H. rewrite (bind_Ok _ _ w u w).
  2:{ unfold User_objects_get, bind, get_world, lift. by rewrite H. }
  unfold bind. by destruct (login u w) as [[[]|e] w'].
Qed.

Lemma logged_in_set_db d u w : logged_in u (set_db d w) = set_db d (logged_in u w).
Proof.
  unfold logged_in, owned_by_other. cbn [session_user set_db].
  destruct (session_user w) as [pk |]; [| reflexivity].
  by destruct (bool_decide (pk = user_id u)).
Qed.

Lemma set_db_logged_in u w : set_db (db w) (logged_in u w) = logged_in u w.
Proof.
  unfold logged_in, owned_by_other.
  destruct (session_user w) as [pk |]; [| reflexivity].
  by destruct (bool_decide (pk = user_id u)).
Qed.

(** X19.  A returning user whose stored data equal the data of the
    identity (an absent ['data'] counting as the empty dictionary) is
    logged in and redirected, and the one write is the time of the login
    on the row of the user: identities, members and audit log are not
    written.  On a storage that accepts no write the resolver raises
    [DatabaseError] and the database is as it was.  Either way the
    session is the one [login] leaves, without the pipeline record when
    it belonged to another user. *)
Theorem login_same_data_writes_last_login h identity w ap ident ai u :
  auth_provider h = Some ap →
  identity !! "id" = Some ident →
  filter (λ r, ai_auth_provider r = ap_id ap ∧ ai_ident r = ident)
         (auth_identities (db w)) = [ai] →
  ai_data ai = dict_get_or identity "data" (VDict ∅) →
  get_by_id "User" user_id (users (db w)) (VInt (ai_user ai)) = Ok u →
  (db_faults w = None →
   _finish_login_pipeline h identity w
   = (Ok (HttpResponseRedirect LoginRedirect),
      set_db (touch_last_login u (now w) (db w)) (logged_in u w)))
  ∧ (db_faults w = Some 0%nat →
     _finish_login_pipeline h identity w
     = (Raise DatabaseError, logged_in u w)).
Proof.
  intros Hap Hid Hrows Hdata Huser.
  assert (Hbody : finish_login_body h identity w
    = match login u w with
      | (Ok _, w') => (Ok (HttpResponseRedirect LoginRedirect), w')
      | (Raise e, w') => (Raise e, w')
      end).
  { unfold finish_login_body, identity_getitem.
    rewrite (bind_Ok _ _ w ident w) by (unfold getitem; by rewrite Hid).
    rewrite (bind_Ok _ _ w (Some ai) w).
    - by apply login_tail.
    - unfold try_except_else, AuthIdentity_objects_get, bind, get_world.
      rewrite Hap, Hrows. cbn [ret].
      unfold py_eq. by rewrite bool_decide_eq_true_2. }
  unfold _finish_login_pipeline, atomic. rewrite Hbody. split; intros Hf.
  - by rewrite (login_accepted u w Hf).
  - rewrite (login_refused u w Hf). by rewrite set_db_logged_in.
Qed.

Lemma login_same_data_writes_last_login_witness :
  let identity := <["data" := VDict (<["team" := SStr "ops"]> ∅)]>
                    Fixture.identity_no_data in
  (let out := _finish_login_pipeline Fixture.h_login identity Fixture.w_known in
   fst out = Ok (HttpResponseRedirect LoginRedirect)
   ∧ users (db (snd out)) = [with_last_login 1000 Fixture.u_one]
   ∧ auth_identities (db (snd out)) = [Fixture.id_one])
  ∧ (let w := set_db_faults (Some 0%nat) Fixture.w_known in
     _finish_login_pipeline Fixture.h_login identity w
     = (Raise DatabaseError, logged_in Fixture.u_one w)).
Proof.
  intros identity. split.
  - rewrite (proj1 (login_same_data_writes_last_login Fixture.h_login identity
                      Fixture.w_known Fixture.acme_sso (VStr "u1") Fixture.id_one
                      Fixture.u_one eq_refl eq_refl eq_refl eq_refl eq_refl)
               eq_refl).
    repeat split.
  - apply (login_same_data_writes_last_login Fixture.h_login identity
             (set_db_faults (Some 0%nat) Fixture.w_known) Fixture.acme_sso
             (VStr "u1") Fixture.id_one Fixture.u_one); reflexivity.
Defined.

(** X20.  The update path of the login resolver, on an identity that
    carries a ['data'] entry other than the stored data, on a storage
    that accepts writes: the row of the identity is rewritten in place
    with the new data, the time of the login is written to the row of
    the user, no row is added, and the user is logged in and
    redirected.  The session is the one [login] leaves, without the
    pipeline record when it belonged to another user. *)
Lemma login_updates_identity_in_place h identity w ap ident ai data u :
  auth_provider h = Some ap →
  identity !! "id" = Some ident →
  filter (λ r, ai_auth_provider r = ap_id ap ∧ ai_ident r = ident)
         (auth_identities (db w)) = [ai] →
  identity !! "data" = Some data →
  ai_data ai ≠ data →
  db_faults w = None →
  get_by_id "User" user_id (users (db w)) (VInt (ai_user ai)) = Ok u →
  _finish_login_pipeline h identity w
  = (Ok (HttpResponseRedirect LoginRedirect),
     set_db
       (touch_last_login u (now w)
          (set_auth_identities
             (map (λ r, if bool_decide (ai_id r = ai_id ai)
                        then with_data data r else r)
                  (auth_identities (db w)))
             (db w)))
       (logged_in u w)).
Proof.
  intros Hap Hid Hrows Hdata Hne Hfaults Huser.
  unfold _finish_login_pipeline, atomic, finish_login_body, identity_getitem.
  rewrite (bind_Ok _ _ w ident w) by (unfold getitem; by rewrite Hid).
  set (d' := set_auth_identities _ (db w)).
  rewrite (bind_Ok _ _ w (Some (with_data data ai)) (set_db d' w)).
  2:{ unfold try_except_else, AuthIdentity_objects_get, bind at 1, get_world.
      rewrite Hap, Hrows. cbn [ret].
      unfold dict_get_or. rewrite Hdata. cbn [default from_option id].
      unfold py_eq. rewrite bool_decide_eq_false_2 by done. cbn [negb].
      rewrite (bind_Ok _ _ w data w) by (unfold getitem; by rewrite Hdata).
      unfold AuthIdentity_update.
      rewrite (bind_Ok _ _ w (with_data data ai) (set_db d' w)); [reflexivity |].
      by rewrite (bind_Ok _ _ w tt (set_db d' w))
        by (by rewrite db_write_accepts). }
  cbn [ai_user with_data]. rewrite (login_tail _ u) by exact Huser.
  rewrite login_accepted by exact Hfaults.
  by rewrite logged_in_set_db.
Qed.

Lemma login_updates_identity_in_place_witness :
  let out := _finish_login_pipeline Fixture.h_login Fixture.the_identity
               Fixture.w_known in
  fst out = Ok (HttpResponseRedirect LoginRedirect)
  ∧ auth_identities (db (snd out))
    = [with_data (VDict (<["team" := SStr "core"]> ∅)) Fixture.id_one]
  ∧ users (db (snd out)) = [with_last_login 1000 Fixture.u_one].
Proof.
  intros out. subst out.
  rewrite (login_updates_identity_in_place Fixture.h_login Fixture.the_identity
             Fixture.w_known Fixture.acme_sso (VStr "u1") Fixture.id_one
             (VDict (<["team" := SStr "core"]> ∅)) Fixture.u_one);
    first [reflexivity | vm_compute; discriminate | idtac].
  repeat split.
Defined.

(** ** The setup resolver *)

(** X21.  On a storage that accepts writes, with a state to build the
    configuration from, an identity that has an id and a request that
    carries its remote address, the setup resolver adds exactly one
    provider for the organization, one identity binding the requesting
    user to that provider, and one [SSO_ENABLE] audit entry, and
    redirects to the organization's auth settings.  (No identity row
    refers to the provider id that is about to be allocated.) *)
Theorem setup_resolver_writes_three_rows h identity w s state config ident ip :
  session_auth w = Some s →
  s !! "state" = Some state →
  build_config (provider h) state = Ok config →
  identity !! "id" = Some ident →
  remote_addr w = Some ip →
  db_faults w = None →
  Forall (λ r, ai_auth_provider r ≠ next_id (auth_providers (db w)))
         (auth_identities (db w)) →
  let p := {| ap_id := next_id (auth_providers (db w));
              ap_organization := org_id (organization h);
              ap_provider := key (provider h);
              ap_config := config;
              ap_default_role := DEFAULT_ROLE |} in
  let i := {| ai_id := next_id (auth_identities (db w));
              ai_auth_provider := ap_id p;
              ai_user := request_user w;
              ai_ident := ident;
              ai_data := dict_get_or identity "data" (VDict ∅) |} in
  let e := {| ale_organization := org_id (organization h);
              ale_actor := request_user w;
              ale_ip_address := ip;
              ale_target_object := ap_id p;
              ale_target_user := None;
              ale_event := SSO_ENABLE;
              ale_data := ProviderAudit p |} in
  _finish_setup_pipeline h identity w
  = (Ok (HttpResponseRedirect
           (Reverse "sentry-organization-auth-settings"
                    [org_slug (organization h)])),
     set_db (add_audit e (add_auth_identity i (add_auth_provider p (db w)))) w).
Proof.
  intros Hs Hst Hcfg Hid Hip Hfaults Hfresh p i e.
  assert (Hmiss : existsb
    (λ r, bool_decide (ai_user r = request_user w ∧ ai_ident r = ident
                       ∧ ai_auth_provider r = ap_id p))
    (auth_identities (db w)) = false).
  { apply not_true_is_false. intros Hex. apply existsb_exists in Hex
      as (r & Hin & Hr). apply bool_decide_eq_true in Hr as (_ & _ & Hr).
    rewrite Forall_forall in Hfresh. apply list_elem_of_In in Hin.
    by apply (Hfresh r Hin). }
  unfold _finish_setup_pipeline, atomic, finish_setup_body, identity_getitem.
  unfold bind at 1, session_getitem_auth, bind at 1, get_world at 1.
  rewrite Hs. cbn [ret].
  unfold bind at 1, getitem at 1. rewrite Hst. cbn [ret].
  unfold bind at 1, lift. rewrite Hcfg.
  unfold bind at 1, AuthProvider_objects_create, bind at 1, get_world at 1.
  unfold bind at 1. rewrite (db_write_accepts _ w Hfaults). cbn [ret].
  unfold bind at 1, get_world at 1.
  unfold bind at 1, getitem at 1. rewrite Hid. cbn [ret].
  unfold bind at 1, AuthIdentity_objects_create_or_update, bind at 1,
    get_world at 1.
  cbn [db set_db auth_identities add_auth_provider request_user].
  fold p. rewrite Hmiss.
  unfold bind at 1, AuthIdentity_objects_create, bind at 1, get_world at 1.
  unfold bind at 1. rewrite db_write_accepts by exact Hfaults. cbn [ret].
  unfold bind at 1, META_REMOTE_ADDR, bind at 1, get_world at 1.
  cbn [remote_addr set_db]. rewrite Hip. cbn [ret].
  unfold bind at 1, AuditLogEntry_objects_create.
  rewrite db_write_accepts by exact Hfaults.
  reflexivity.
Qed.

Lemma setup_resolver_writes_three_rows_witness :
  let out := _finish_setup_pipeline Fixture.h_setup Fixture.the_identity
               Fixture.w_setup in
  fst out = Ok (HttpResponseRedirect
                  (Reverse "sentry-organization-auth-settings" ["acme"]))
  ∧ length (auth_providers (db (snd out))) = 2%nat
  ∧ length (auth_identities (db (snd out))) = 1%nat
  ∧ length (audit_log (db (snd out))) = 1%nat.
Proof.
  intros out. subst out.
  rewrite (setup_resolver_writes_three_rows Fixture.h_setup Fixture.the_identity
             Fixture.w_setup (default ∅ (session_auth Fixture.w_setup)) (VDict ∅)
             (VDict ∅) (VStr "u1") "10.0.0.1"
             eq_refl eq_refl eq_refl eq_refl eq_refl eq_refl (Forall_nil_2 _)).
  repeat split.
Defined.

(** ** [finish_pipeline] and [error], continued *)

(** X22.  When [finish_pipeline] raises, the database is what it was
    before the call, with one exception: the stored flow is the login,
    the login resolver returned its response, and its [login] flushed a
    session that belonged to another user, so that the deletion of the
    record raises [KeyError]; what the resolver wrote is kept then.  In a
    session that belongs to nobody the database is always what it
    was. *)
Theorem finish_pipeline_failure_database h w e w' :
  finish_pipeline h w = (Raise e, w') →
  (db w' = db w
   ∨ (e = KeyError "auth"
      ∧ session_auth w' = None
      ∧ (∃ s, session_auth w = Some s ∧ s !! "flow" = Some (VInt FLOW_LOGIN))
      ∧ (∃ r identity, _finish_login_pipeline h identity w = (Ok r, w'))
      ∧ ∃ pk uid, session_user w = Some pk
                  ∧ session_user w' = Some uid ∧ pk ≠ uid))
  ∧ (session_user w = None → db w' = db w).
Proof.
  intros H.
  assert (Hmain :
    db w' = db w
    ∨ (e = KeyError "auth"
       ∧ session_auth w' = None
       ∧ (∃ s, session_auth w = Some s ∧ s !! "flow" = Some (VInt FLOW_LOGIN))
       ∧ (∃ r identity, _finish_login_pipeline h identity w = (Ok r, w'))
       ∧ ∃ pk uid, session_user w = Some pk
                   ∧ session_user w' = Some uid ∧ pk ≠ uid)).
  { revert H.
    destruct (session_auth w) as [s |] eqn:Hs.
    2:{ unfold finish_pipeline, bind at 1.
        unfold session_getitem_auth, bind, get_world. rewrite Hs.
        intros [= _ <-]. by left. }
    destruct (finish_pipeline_early h w s Hs)
      as [(state & identity & Hst & Hid) | [e' ->]];
      [| intros [= _ <-]; by left].
    destruct (s !! "flow") as [fl |] eqn:Hfl.
    2:{ unfold finish_pipeline, bind at 1.
        unfold session_getitem_auth, bind at 1, get_world. rewrite Hs. cbn [ret].
        unfold bind at 1, getitem at 1. rewrite Hst. cbn [ret].
        unfold bind at 1, lift. rewrite Hid.
        unfold bind, getitem. rewrite Hfl. intros [= _ <-]. by left. }
    rewrite (finish_pipeline_unfold h w s state identity fl Hs Hst Hid Hfl).
    destruct (py_eq fl (VInt FLOW_LOGIN)) eqn:Hlogin.
    - apply py_eq_true in Hlogin as ->.
      destruct (_finish_login_pipeline h identity w) as [[r|e1] w1] eqn:E;
        cbn [after_resolver].
      + destruct (session_auth w1) eqn:Hw1; [discriminate |].
        intros [= <- <-]. right.
        destruct (finish_login_pipeline_session _ _ _ _ _ E)
          as [_ [Hk | (_ & Hflush)]]; [congruence |].
        repeat split; eauto.
      + intros [= _ <-]. left. exact (atomic_raise_db _ _ _ _ E).
    - destruct (py_eq fl (VInt FLOW_SETUP_PROVIDER));
        [| intros [= _ <-]; by left].
      destruct (_finish_setup_pipeline h identity w) as [[r|e1] w1] eqn:E;
        cbn [after_resolver].
      + destruct (keeps_finish_setup_pipeline _ _ _ _ _ E) as (Ha & _).
        rewrite Ha, Hs. discriminate.
      + intros [= _ <-]. left. exact (atomic_raise_db _ _ _ _ E). }
  split; [exact Hmain |].
  intros Hnobody. destruct Hmain as [Hdb | (_ & _ & _ & _ & pk & uid & Hpk & _)];
    [done | congruence].
Qed.

(** On a storage that fails nothing is left of a first login; in the
    session of another user the update of the returning user is kept and
    the record is gone. *)
Lemma finish_pipeline_failure_database_witness :
  db (snd (finish_pipeline Fixture.h_login Fixture.w_failing))
  = db Fixture.w_failing
  ∧ (let out := finish_pipeline Fixture.h_login Fixture.w_other_user in
     fst out = Raise (KeyError "auth")
     ∧ session_auth (snd out) = None
     ∧ auth_identities (db (snd out))
       = [with_data (VDict (<["team" := SStr "core"]> ∅)) Fixture.id_one]).
Proof.
  split.
  - apply (proj2 (finish_pipeline_failure_database Fixture.h_login
                    Fixture.w_failing DatabaseError
                    (snd (finish_pipeline Fixture.h_login Fixture.w_failing))
                    ltac:(vm_compute; reflexivity))).
    reflexivity.
  - vm_compute. done.
Defined.

(** X23.  [error] never removes or changes the pipeline record, never
    sets the attribute [is_modified] and never writes to the database.  It queues
    exactly one message, except when the record or its flow is missing:
    then it raises [KeyError] and changes nothing. *)
Theorem error_keeps_record h message w r w' :
  error h message w = (r, w') →
  session_auth w' = session_auth w
  ∧ is_modified w' = is_modified w
  ∧ db w' = db w
  ∧ (flash w' = flash w ++ ["Authentication error: " +:+ message]
     ∨ (w' = w ∧ ∃ k, r = Raise (KeyError k))).
Proof.
  unfold error, bind at 1, session_getitem_auth, bind at 1, get_world.
  destruct (session_auth w) as [s |] eqn:Hs; cbn [ret raise].
  2:{ intros [= <- <-]. rewrite Hs. repeat split. right. eauto. }
  unfold bind at 1, getitem.
  destruct (s !! "flow") as [fl |]; cbn [ret raise].
  2:{ intros [= <- <-]. rewrite Hs. repeat split. right. eauto. }
  unfold bind, messages_error, modify.
  destruct (py_eq fl (VInt FLOW_LOGIN));
    [| destruct (py_eq fl (VInt FLOW_SETUP_PROVIDER))];
    intros [= <- <-]; cbn; rewrite ?Hs; repeat split; by left.
Qed.

Lemma error_keeps_record_witness :
  session_auth (snd (error Fixture.h_login "denied" Fixture.w_login))
  = session_auth Fixture.w_login
  ∧ flash (snd (error Fixture.h_login "denied" Fixture.w_login))
    = ["Authentication error: denied"].
Proof.
  destruct (error_keeps_record Fixture.h_login "denied" Fixture.w_login
              (fst (error Fixture.h_login "denied" Fixture.w_login))
              (snd (error Fixture.h_login "denied" Fixture.w_login)))
    as (H1 & _ & _ & _); [by destruct (error _ _ _) |].
  split; [exact H1 | reflexivity].
Defined.

(** ** The format of the signature *)

Lemma length_string_of_list_ascii l :
  String.length (string_of_list_ascii l) = length l.
Proof. induction l as [| c l IH]; [reflexivity |]. cbn. by rewrite IH. Qed.

Lemma length_le_bytes n x : length (MD5.le_bytes n x) = n.
Proof. revert x. induction n as [| n IH]; intros x; [reflexivity |]. cbn. by rewrite IH. Qed.

Lemma length_flat_map_hex_byte l :
  length (flat_map MD5.hex_byte l) = (2 * length l)%nat.
Proof. induction l as [| b l IH]; [reflexivity |]. cbn [flat_map length app MD5.hex_byte]. cbn. rewrite IH. lia. Qed.

Lemma hex_digit_is_hex_char n : is_hex_char (MD5.hex_digit n).
Proof.
  unfold is_hex_char, MD5.hex_digit.
  set (l := list_ascii_of_string "0123456789abcdef").
  destruct (Nat.lt_ge_cases (Z.to_nat n) (length l)) as [Hlt | Hge].
  - apply list_elem_of_In, nth_In, Hlt.
  - rewrite nth_overflow by exact Hge. subst l. cbn. apply list_elem_of_here.
Qed.

(** X24.  The signature of every pipeline is a string of 32 characters,
    each of them one of [0123456789abcdef]. *)
Theorem signature_is_32_hex_chars p :
  String.length (compute_signature p) = 32%nat
  ∧ ∀ c, c ∈ list_ascii_of_string (compute_signature p) → is_hex_char c.
Proof.
  unfold compute_signature, MD5.hexdigest. split.
  - rewrite length_string_of_list_ascii, length_flat_map_hex_byte.
    unfold MD5.digest. cbv zeta. rewrite !length_app, !length_le_bytes.
    reflexivity.
  - intros c. rewrite list_ascii_of_string_of_list_ascii.
    rewrite list_elem_of_In, in_flat_map. intros (b & _ & Hc).
    cbn in Hc. destruct Hc as [<- | [<- | []]]; apply hex_digit_is_hex_char.
Qed.
